(** * oidc_auth: the OIDC controller, its session store and its settings

    A shallow embedding of [oidc_auth/controller.py], [oidc_auth/session.py]
    and [oidc_auth/types.py].  Python text is a [string] holding the UTF-8
    bytes of the [str]; Python integers are [Z]; dictionaries are [gmap]s;
    the controller's methods are computations in a state-and-exception
    monad over the session store, the random source behind [uuid.uuid4] and
    the log of the HTTP calls made to the identity provider. *)

From Stdlib Require Import ZArith String Ascii List Lia Bool.
From Stdlib Require Import Floats.SpecFloat.
From stdpp Require Import gmap strings list fin_maps.

Local Open Scope Z_scope.
Local Open Scope string_scope.

(** ** Python values (what [Response.json()] can return, [Dict[str, Any]]) *)

#[warnings="-register-all"]
Inductive PyVal : Type :=
| PyNone
| PyBool (b : bool)
| PyInt (n : Z)
| PyFloat (f : spec_float)
| PyStr (s : string)
| PyList (l : list PyVal)
| PyDict (d : gmap string PyVal).

(** Truth value testing, as used by [not code] and [not subject_token]. *)
Definition str_truthy (s : string) : bool :=
  match s with
  | EmptyString => false
  | String _ _ => true
  end.

Definition py_truthy (v : PyVal) : bool :=
  match v with
  | PyNone => false
  | PyBool b => b
  | PyInt n => negb (Z.eqb n 0)
  | PyFloat (S754_zero _) => false
  | PyFloat _ => true
  | PyStr s => str_truthy s
  | PyList l => match l with [] => false | _ :: _ => true end
  | PyDict d => negb (Nat.eqb (size d) 0)
  end.

(** [d.get(k)]: the value, or [None] when the key is absent. *)
Definition dict_get (d : gmap string PyVal) (k : string) : PyVal :=
  default PyNone (d !! k).

(** [Optional[str]] coming out of [QueryParams.get] / [cookies.get]. *)
Definition opt_truthy (o : option string) : bool :=
  match o with
  | None => false
  | Some s => str_truthy s
  end.

(** ** [uuid.uuid4()] and [str(UUID)] *)

Module UUID.

(** The sixteen hexadecimal digits of ['%x']. *)
Definition hex_char (d : Z) : ascii :=
  match d with
  | 0 => "0" | 1 => "1" | 2 => "2" | 3 => "3"
  | 4 => "4" | 5 => "5" | 6 => "6" | 7 => "7"
  | 8 => "8" | 9 => "9" | 10 => "a" | 11 => "b"
  | 12 => "c" | 13 => "d" | 14 => "e" | _ => "f"
  end%char.

(** ['%0<width>x' % n] for [0 <= n < 16 ^ width]. *)
Fixpoint format_hex (width : nat) (n : Z) : string :=
  match width with
  | O => ""
  | S w => format_hex w (n / 16) +:+ String (hex_char (n mod 16)) ""
  end.

(** [UUID.hex]: ['%032x' % self.int]. *)
Definition hex (int : Z) : string := format_hex 32 int.

(** Python slices [x[lo:hi]] and [x[lo:]] on text. *)
Definition slice (lo hi : nat) (x : string) : string :=
  substring lo (hi - lo) x.
Definition slice_from (lo : nat) (x : string) : string :=
  substring lo (String.length x - lo) x.

(** [UUID.__str__]:
    [f'{x[:8]}-{x[8:12]}-{x[12:16]}-{x[16:20]}-{x[20:]}']. *)
Definition dashed (x : string) : string :=
  slice 0 8 x +:+ "-" +:+ slice 8 12 x +:+ "-" +:+ slice 12 16 x
    +:+ "-" +:+ slice 16 20 x +:+ "-" +:+ slice_from 20 x.

Definition to_str (int : Z) : string := dashed (hex int).

(** [UUID(bytes=..., version=4)]: the variant and version bits are
    forced, the other 122 bits are those of the random bytes. *)
Definition set_version4 (int : Z) : Z :=
  let int := Z.land int (Z.lnot (Z.shiftl 0xc000 48)) in
  let int := Z.lor int (Z.shiftl 0x8000 48) in
  let int := Z.land int (Z.lnot (Z.shiftl 0xf000 64)) in
  Z.lor int (Z.shiftl 4 76).

(** [int.from_bytes(os.urandom(16))]: a 128-bit integer. *)
Definition from_random (r : Z) : Z := r mod 2 ^ 128.

Definition uuid4_int (r : Z) : Z := set_version4 (from_random r).

End UUID.

(** ** [urllib.parse.quote], used by Starlette's [RedirectResponse] *)

Module Urllib.

Definition mem (c : ascii) (s : string) : bool :=
  existsb (Ascii.eqb c) (list_ascii_of_string s).

(** [_ALWAYS_SAFE]: the unreserved characters. *)
Definition ALWAYS_SAFE : string :=
  "ABCDEFGHIJKLMNOPQRSTUVWXYZabcdefghijklmnopqrstuvwxyz0123456789_.-~".

Definition HEX_UPPER (d : N) : ascii :=
  match d with
  | 0 => "0" | 1 => "1" | 2 => "2" | 3 => "3"
  | 4 => "4" | 5 => "5" | 6 => "6" | 7 => "7"
  | 8 => "8" | 9 => "9" | 10 => "A" | 11 => "B"
  | 12 => "C" | 13 => "D" | 14 => "E" | _ => "F"
  end%N%char.

(** The quoter: [chr(b) if b in safe else '%{:02X}'.format(b)]. *)
Definition quote_byte (safe : string) (c : ascii) : string :=
  if mem c ALWAYS_SAFE || mem c safe then String c ""
  else
    let b := N_of_ascii c in
    String "%" (String (HEX_UPPER (b / 16)) (String (HEX_UPPER (b mod 16)) "")).

(** [quote(string, safe)]: [''.join([quoter(char) for char in bs])]. *)
Fixpoint quote (safe : string) (bs : string) : string :=
  match bs with
  | EmptyString => ""
  | String c rest => quote_byte safe c +:+ quote safe rest
  end.

End Urllib.

(** ** [oidc_auth.types.OIDCSettings] *)

(** [Literal["lax", "strict", "none"]]. *)
Inductive SameSite : Type := lax | strict | none.

Record OIDCSettings : Type := {
  CLIENT_ID : string;
  CLIENT_SECRET : string;
  ISSUER_URL : string;
  AUTHORIZE_URL : string;
  TOKEN_URL : string;
  USERINFO_URL : string;
  REDIRECT_URI : string;
  SCOPE : string;
  COOKIE_SECURE : bool;
  COOKIE_SAMESITE : SameSite
}.

(** Building the settings the way [OIDCSettings()] does in [main.py]:
    every field is looked up in the process environment under the prefix
    [OIDC_]; a field declared [Field(...)] is required, the others fall
    back on the declared default; [str] accepts any text, [bool] and the
    [Literal] are parsed by pydantic.  The environment is [os.environ];
    pydantic-settings, with [case_sensitive] left at its default, matches
    the names of the variables without regard to case. *)
Module Settings.

Inductive ErrorType : Type := missing | bool_parsing | literal_error.

(** [pydantic.ValidationError]: one entry per offending field. *)
Definition ValidationError : Type := list (string * ErrorType).

Definition env_prefix : string := "OIDC_".

Definition lower_char (c : ascii) : ascii :=
  let n := N_of_ascii c in
  if ((65 <=? n) && (n <=? 90))%N then ascii_of_N (n + 32) else c.

Fixpoint lower (s : string) : string :=
  match s with
  | EmptyString => ""
  | String c r => String (lower_char c) (lower r)
  end.

(** pydantic's lax [str -> bool] conversion. *)
Definition parse_bool (s : string) : option bool :=
  let l := lower s in
  if existsb (String.eqb l) ["1"; "on"; "t"; "true"; "y"; "yes"] then Some true
  else if existsb (String.eqb l) ["0"; "off"; "f"; "false"; "n"; "no"] then Some false
  else None.

Definition parse_samesite (s : string) : option SameSite :=
  if String.eqb s "lax" then Some lax
  else if String.eqb s "strict" then Some strict
  else if String.eqb s "none" then Some none
  else None.

(** [parse_env_vars]: the variables under their names in lower case; of
    two names that differ only in case, the one enumerated later stays (the
    environment is enumerated in the order of [map_to_list]). *)
Definition env_vars (environ : gmap string string) : gmap string string :=
  foldl (fun vars kv => <[lower (fst kv) := snd kv]> vars) ∅ (map_to_list environ).

(** The value read for a field: that of the variable whose name is the
    prefix followed by the field's name, in any case. *)
Definition lookup_env (environ : gmap string string) (name : string) : option string :=
  env_vars environ !! lower (env_prefix +:+ name).

(** [name: str = Field(...)] *)
Definition required_str (environ : gmap string string) (name : string)
  : ValidationError + string :=
  match lookup_env environ name with
  | Some v => inr v
  | None => inl [(name, missing)]
  end.

(** [name: str = Field(dflt)] *)
Definition optional_str (environ : gmap string string) (name dflt : string)
  : ValidationError + string :=
  match lookup_env environ name with
  | Some v => inr v
  | None => inr dflt
  end.

(** [name: bool = Field(dflt)] *)
Definition optional_bool (environ : gmap string string) (name : string) (dflt : bool)
  : ValidationError + bool :=
  match lookup_env environ name with
  | Some v =>
      match parse_bool v with
      | Some b => inr b
      | None => inl [(name, bool_parsing)]
      end
  | None => inr dflt
  end.

(** [name: Literal["lax", "strict", "none"] = Field(dflt)] *)
Definition optional_samesite (environ : gmap string string) (name : string) (dflt : SameSite)
  : ValidationError + SameSite :=
  match lookup_env environ name with
  | Some v =>
      match parse_samesite v with
      | Some p => inr p
      | None => inl [(name, literal_error)]
      end
  | None => inr dflt
  end.

Definition errors {A : Type} (r : ValidationError + A) : ValidationError :=
  match r with
  | inl e => e
  | inr _ => []
  end.

(** [OIDCSettings()]: the settings, or the validation error raised. *)
Definition init (environ : gmap string string) : ValidationError + OIDCSettings :=
  let client_id := required_str environ "CLIENT_ID" in
  let client_secret := required_str environ "CLIENT_SECRET" in
  let issuer_url := required_str environ "ISSUER_URL" in
  let authorize_url := required_str environ "AUTHORIZE_URL" in
  let token_url := required_str environ "TOKEN_URL" in
  let userinfo_url := required_str environ "USERINFO_URL" in
  let redirect_uri :=
    optional_str environ "REDIRECT_URI" "http://localhost:8000/oidc/callback" in
  let scope := optional_str environ "SCOPE" "openid email profile" in
  let cookie_secure := optional_bool environ "COOKIE_SECURE" false in
  let cookie_samesite := optional_samesite environ "COOKIE_SAMESITE" lax in
  match client_id, client_secret, issuer_url, authorize_url, token_url,
        userinfo_url, redirect_uri, scope, cookie_secure, cookie_samesite with
  | inr a, inr b, inr c, inr d, inr e, inr f, inr g, inr h, inr i, inr j =>
      inr {| CLIENT_ID := a; CLIENT_SECRET := b; ISSUER_URL := c;
             AUTHORIZE_URL := d; TOKEN_URL := e; USERINFO_URL := f;
             REDIRECT_URI := g; SCOPE := h; COOKIE_SECURE := i;
             COOKIE_SAMESITE := j |}
  | _, _, _, _, _, _, _, _, _, _ =>
      inl (errors client_id ++ errors client_secret ++ errors issuer_url
           ++ errors authorize_url ++ errors token_url ++ errors userinfo_url
           ++ errors redirect_uri ++ errors scope ++ errors cookie_secure
           ++ errors cookie_samesite)%list
  end.

End Settings.

(** ** The identity provider, seen through [httpx.AsyncClient] *)

Module Httpx.

Inductive Method : Type := GET | POST.

(** A header value is literal text, or the f-string
    [f"Bearer {access_token}"] with the interpolated value kept as it is. *)
Inductive HeaderValue : Type :=
| Text (s : string)
| Bearer (access_token : PyVal).

Record Request : Type := {
  method : Method;
  url : string;
  data : list (string * PyVal);
  headers : list (string * HeaderValue)
}.

(** What the controller reads of a response: [status_code], and the
    result of [json()], which is absent when the body does not decode. *)
Record Response : Type := {
  status_code : Z;
  json : option PyVal
}.

(** A call either gets a response or fails in the network stack. *)
Inductive Outcome : Type :=
| Responded (r : Response)
| Failed.

End Httpx.

(** ** The world the controller runs in *)

(** The parts the controller cannot influence: the bytes [os.urandom(16)]
    returns at its n-th call (as an integer), and the provider, which
    answers a request knowing every request made before it. *)
Record World : Type := {
  os_urandom : nat -> Z;
  provider : list Httpx.Request -> Httpx.Request -> Httpx.Outcome
}.

(** The mutable state: the [InMemorySessionStore] (a [dict] from session
    identifier to [Dict[str, Any]]), the number of random draws made so
    far and the requests sent to the provider, oldest first. *)
Record State : Type := {
  session_store : gmap string (gmap string PyVal);
  urandom_calls : nat;
  http_log : list Httpx.Request
}.

Definition initial_state : State :=
  {| session_store := ∅; urandom_calls := O; http_log := [] |}.

Inductive PyExc : Type :=
| RequestError
| JSONDecodeError
| AttributeError
| KeyError.

Inductive Result (A : Type) : Type :=
| Return (a : A)
| Raise (e : PyExc).
Arguments Return {A} a.
Arguments Raise {A} e.

(** Computations that read and write the state and may raise. *)
Definition M (A : Type) : Type := State -> Result A * State.

Definition ret {A : Type} (a : A) : M A := fun st => (Return a, st).

Definition raise {A : Type} (e : PyExc) : M A := fun st => (Raise e, st).

Definition bind {A B : Type} (m : M A) (k : A -> M B) : M B :=
  fun st =>
    match m st with
    | (Return a, st') => k a st'
    | (Raise e, st') => (Raise e, st')
    end.

Declare Scope py_scope.
Delimit Scope py_scope with py.
Notation "x <- m ;; k" := (bind m (fun x => k))
  (at level 100, m at next level, right associativity) : py_scope.
Notation "m ;; k" := (bind m (fun _ => k))
  (at level 100, right associativity) : py_scope.
Local Open Scope py_scope.

Section Primitives.

Variable world : World.

(** [str(uuid.uuid4())] *)
Definition uuid4_str : M string :=
  fun st =>
    (Return (UUID.to_str (UUID.uuid4_int (os_urandom world (urandom_calls st)))),
     {| session_store := session_store st;
        urandom_calls := S (urandom_calls st);
        http_log := http_log st |}).

(** [await client.post(...)] / [await client.get(...)] *)
Definition send (rq : Httpx.Request) : M Httpx.Response :=
  fun st =>
    let st' := {| session_store := session_store st;
                  urandom_calls := urandom_calls st;
                  http_log := http_log st ++ [rq] |} in
    match provider world (http_log st) rq with
    | Httpx.Responded r => (Return r, st')
    | Httpx.Failed => (Raise RequestError, st')
    end.

End Primitives.

(** [resp.json()] *)
Definition json (r : Httpx.Response) : M PyVal :=
  match Httpx.json r with
  | Some v => ret v
  | None => raise JSONDecodeError
  end.

(** [v.get(k)]: only a [dict] has the method. *)
Definition py_get (v : PyVal) (k : string) : M PyVal :=
  match v with
  | PyDict d => ret (dict_get d k)
  | _ => raise AttributeError
  end.

(** The [MutableMapping] operations of the session store. *)
Definition store_contains (k : string) : M bool :=
  fun st => (Return (bool_decide (is_Some (session_store st !! k))), st).

Definition store_getitem (k : string) : M (gmap string PyVal) :=
  fun st =>
    match session_store st !! k with
    | Some r => (Return r, st)
    | None => (Raise KeyError, st)
    end.

Definition store_setitem (k : string) (v : gmap string PyVal) : M unit :=
  fun st =>
    (Return tt,
     {| session_store := <[k := v]> (session_store st);
        urandom_calls := urandom_calls st;
        http_log := http_log st |}).

Definition store_delitem (k : string) : M unit :=
  fun st =>
    match session_store st !! k with
    | Some _ =>
        (Return tt,
         {| session_store := delete k (session_store st);
            urandom_calls := urandom_calls st;
            http_log := http_log st |})
    | None => (Raise KeyError, st)
    end.

(** ** The framework's requests and responses (Starlette) *)

Module Starlette.

Record Request : Type := {
  query_params : gmap string string;
  cookies : gmap string string
}.

(** The arguments [set_cookie] writes into the [Set-Cookie] header. *)
Record Cookie : Type := {
  key : string;
  value : string;
  max_age : option Z;
  expires : option Z;
  path : option string;
  domain : option string;
  secure : bool;
  httponly : bool;
  samesite : option SameSite
}.

Inductive Content : Type :=
| Empty
| Json (v : PyVal).

Record Response : Type := {
  status_code : Z;
  location : option string;
  content : Content;
  set_cookies : list Cookie
}.

(** [JSONResponse(content, status_code=...)] *)
Definition JSONResponse (v : PyVal) (status : Z) : Response :=
  {| status_code := status; location := None; content := Json v;
     set_cookies := [] |}.

Definition REDIRECT_SAFE : string := ":/%#?=@[]!$&'()*+,;".

(** [RedirectResponse(url)]: [status_code] defaults to 307 and the
    [location] header is [quote(str(url), safe=":/%#?=@[]!$&'()*+,;")]. *)
Definition RedirectResponse (url : string) : Response :=
  {| status_code := 307;
     location := Some (Urllib.quote REDIRECT_SAFE url);
     content := Empty;
     set_cookies := [] |}.

(** [response.set_cookie(key, value, max_age, expires, path, domain,
    secure, httponly, samesite)]: one more [Set-Cookie] header. *)
Definition set_cookie (response : Response) (c : Cookie) : Response :=
  {| status_code := status_code response;
     location := location response;
     content := content response;
     set_cookies := set_cookies response ++ [c] |}.

(** [response.delete_cookie(key)]: [set_cookie] with an empty value,
    [max_age=0], [expires=0] and the other defaults. *)
Definition delete_cookie (response : Response) (k : string) : Response :=
  set_cookie response
    {| key := k; value := ""; max_age := Some 0; expires := Some 0;
       path := Some "/"; domain := None; secure := false;
       httponly := false; samesite := Some lax |}.

End Starlette.

(** ** [oidc_auth.controller.OIDCController] *)

Definition error_body (msg : string) : PyVal :=
  PyDict {[ "error" := PyStr msg ]}.

Module OIDCController.
Section Methods.

(** [self.config]; [self.session_store] lives in the state. *)
Variable config : OIDCSettings.
Variable world : World.

Definition login (request : Starlette.Request) : M Starlette.Response :=
  state <- uuid4_str world ;;
  let params :=
    [ ("client_id", CLIENT_ID config);
      ("response_type", "code");
      ("scope", SCOPE config);
      ("redirect_uri", REDIRECT_URI config);
      ("state", state) ] in
  let query := String.concat "&" (map (fun kv => fst kv +:+ "=" +:+ snd kv) params) in
  ret (Starlette.RedirectResponse (AUTHORIZE_URL config +:+ "?" +:+ query)).

Definition token_request (code : string) : Httpx.Request :=
  {| Httpx.method := Httpx.POST;
     Httpx.url := TOKEN_URL config;
     Httpx.data :=
       [ ("client_id", PyStr (CLIENT_ID config));
         ("client_secret", PyStr (CLIENT_SECRET config));
         ("grant_type", PyStr "authorization_code");
         ("code", PyStr code);
         ("redirect_uri", PyStr (REDIRECT_URI config)) ];
     Httpx.headers := [ ("Accept", Httpx.Text "application/json") ] |}.

Definition userinfo_request (access_token : PyVal) : Httpx.Request :=
  {| Httpx.method := Httpx.GET;
     Httpx.url := USERINFO_URL config;
     Httpx.data := [];
     Httpx.headers := [ ("Authorization", Httpx.Bearer access_token) ] |}.

Definition session_cookie (session_id : string) : Starlette.Cookie :=
  {| Starlette.key := "session_id";
     Starlette.value := session_id;
     Starlette.max_age := None;
     Starlette.expires := None;
     Starlette.path := Some "/";
     Starlette.domain := None;
     Starlette.secure := COOKIE_SECURE config;
     Starlette.httponly := true;
     Starlette.samesite := Some (COOKIE_SAMESITE config) |}.

Definition session_record (user_info access_token : PyVal) : gmap string PyVal :=
  {[ "user" := user_info; "access_token" := access_token ]}.

Definition callback (request : Starlette.Request) : M Starlette.Response :=
  let code := Starlette.query_params request !! "code" in
  if negb (opt_truthy code) then
    ret (Starlette.JSONResponse (error_body "Missing code") 400)
  else
    token_resp <- send world (token_request (default "" code)) ;;
    if negb (Z.eqb (Httpx.status_code token_resp) 200) then
      ret (Starlette.JSONResponse (error_body "Failed to get token") 400)
    else
      tokens <- json token_resp ;;
      access_token <- py_get tokens "access_token" ;;
      user_resp <- send world (userinfo_request access_token) ;;
      user_info <- json user_resp ;;
      session_id <- uuid4_str world ;;
      store_setitem session_id (session_record user_info access_token) ;;
      let response := Starlette.RedirectResponse "/" in
      ret (Starlette.set_cookie response (session_cookie session_id)).

Definition logout (request : Starlette.Request) : M Starlette.Response :=
  let session_id := Starlette.cookies request !! "session_id" in
  (if opt_truthy session_id then
     present <- store_contains (default "" session_id) ;;
     if (present : bool) then store_delitem (default "" session_id) else ret tt
   else ret tt) ;;
  let response := Starlette.RedirectResponse "/login" in
  ret (Starlette.delete_cookie response "session_id").

Definition exchange_request (subject_token : PyVal) (target_client : string)
  : Httpx.Request :=
  {| Httpx.method := Httpx.POST;
     Httpx.url := TOKEN_URL config;
     Httpx.data :=
       [ ("grant_type", PyStr "urn:ietf:params:oauth:grant-type:token-exchange");
         ("client_id", PyStr (CLIENT_ID config));
         ("client_secret", PyStr (CLIENT_SECRET config));
         ("subject_token", subject_token);
         ("subject_token_type",
          PyStr "urn:ietf:params:oauth:token-type:access_token");
         ("audience", PyStr target_client) ];
     Httpx.headers := [ ("Accept", Httpx.Text "application/json") ] |}.

Definition exchange_token (session_id target_client : string) : M PyVal :=
  present <- store_contains session_id ;;
  if negb present then ret PyNone
  else
    record <- store_getitem session_id ;;
    let subject_token := dict_get record "access_token" in
    if negb (py_truthy subject_token) then ret PyNone
    else
      exchange_resp <- send world (exchange_request subject_token target_client) ;;
      if negb (Z.eqb (Httpx.status_code exchange_resp) 200) then ret PyNone
      else
        new_tokens <- json exchange_resp ;;
        py_get new_tokens "access_token".

End Methods.
End OIDCController.


(** ** Slices of text *)

(** A byte of the form [10xxxxxx] continues the character begun before it. *)
Definition is_continuation (c : ascii) : bool :=
  N.eqb (N.land (N_of_ascii c) 192) 128.

(** [s[:n]]: the first [n] characters of the text, each with all its bytes. *)
Fixpoint str_take (n : nat) (s : string) : string :=
  match s with
  | EmptyString => ""
  | String c rest =>
      if is_continuation c then String c (str_take n rest)
      else
        match n with
        | O => ""
        | S m => String c (str_take m rest)
        end
  end.

(** ** [oidc_auth.main]: the downstream endpoint *)

Module Main.

(** The request a handler receives: [request.state.user] is whatever was
    attached to it before the handler runs. *)
Record Request : Type := {
  state_user : PyVal;
  request : Starlette.Request
}.

(** The f-string [f"{exchanged_token[:15]}..."]: text for a [str]; for a
    [list] the interpolated slice is kept as it is. *)
Inductive Preview : Type :=
| PreviewText (s : string)
| PreviewList (l : list PyVal).

(** What the handler hands back to the framework: the [dict] of the
    success case, or a response of its own. *)
Inductive Returned : Type :=
| Body (message : string) (downstream_token_preview : Preview)
| Response (r : Starlette.Response).

(** The handler returns, or an exception of the controller passes through
    it, or the subscript [exchanged_token[:15]] raises. *)
Inductive Outcome : Type :=
| Returns (r : Returned)
| Raises (e : PyExc)
| RaisesOnSubscript.

(** [exchanged_token[:15]] inside the f-string: only text and lists can be
    sliced. *)
Definition preview (exchanged_token : PyVal) : option Preview :=
  match exchanged_token with
  | PyStr s => Some (PreviewText (str_take 15 s +:+ "..."))
  | PyList l => Some (PreviewList (take 15 l))
  | _ => None
  end.

Definition call_downstream_api (config : OIDCSettings) (world : World)
  (rq : Request) (st : State) : Outcome * State :=
  if negb (py_truthy (state_user rq)) then
    (Returns (Response (Starlette.JSONResponse (error_body "Unauthorized") 401)), st)
  else
    let session_id := Starlette.cookies (request rq) !! "session_id" in
    if negb (opt_truthy session_id) then
      (Returns (Response (Starlette.JSONResponse (error_body "Missing session") 400)),
       st)
    else
      let target_client_id := "downstream-api-client-id" in
      match OIDCController.exchange_token config world (default "" session_id)
              target_client_id st with
      | (Raise e, st') => (Raises e, st')
      | (Return exchanged_token, st') =>
          if py_truthy exchanged_token then
            match preview exchanged_token with
            | Some p =>
                (Returns
                   (Body "Successfully exchanged token for downstream API." p),
                 st')
            | None => (RaisesOnSubscript, st')
            end
          else
            (Returns
               (Response
                  (Starlette.JSONResponse (error_body "Failed to exchange token")
                     500)),
             st')
      end.

End Main.

(** * Vocabulary of the statements *)

(** The characters [quote] leaves alone under a given [safe] set. *)
Definition kept (safe : string) (c : ascii) : bool :=
  Urllib.mem c Urllib.ALWAYS_SAFE || Urllib.mem c safe.

Definition all_kept (safe : string) (s : string) : bool :=
  forallb (kept safe) (list_ascii_of_string s).

Module UUIDSpec.

(** The value a hexadecimal digit stands for. *)
Definition hex_value (c : ascii) : Z :=
  match index 0 (String c "") "0123456789abcdef" with
  | Some i => Z.of_nat i
  | None => -1
  end.

(** Removing the four dashes gives the digits back. *)
Definition undashed (s : string) : string :=
  substring 0 8 s +:+ substring 9 4 s +:+ substring 14 4 s
    +:+ substring 19 4 s +:+ substring 24 12 s.

End UUIDSpec.

(** The identifier the next call of [str(uuid.uuid4())] returns. *)
Definition next_uuid (world : World) (st : State) : string :=
  UUID.to_str (UUID.uuid4_int (os_urandom world (urandom_calls st))).

(** The calls a client of the controller can make, and the states they
    lead to from the empty store of [main.py]. *)
Inductive Call : Type :=
| Login (request : Starlette.Request)
| Callback (request : Starlette.Request)
| Logout (request : Starlette.Request)
| ExchangeToken (session_id target_client : string).

Definition step (config : OIDCSettings) (world : World) (c : Call) (st : State)
  : State :=
  match c with
  | Login request => snd (OIDCController.login config world request st)
  | Callback request => snd (OIDCController.callback config world request st)
  | Logout request => snd (OIDCController.logout request st)
  | ExchangeToken session_id target_client =>
      snd (OIDCController.exchange_token config world session_id target_client st)
  end.

Inductive reachable (config : OIDCSettings) (world : World) : State -> Prop :=
| reachable_initial : reachable config world initial_state
| reachable_step (c : Call) (st : State) :
    reachable config world st -> reachable config world (step config world c st).

Definition run (config : OIDCSettings) (world : World) (calls : list Call)
  (st : State) : State :=
  fold_left (fun st c => step config world c st) calls st.

(** The values of the cookies a response sets. *)
Definition cookie_values (r : Result Starlette.Response) : list string :=
  match r with
  | Return response => map Starlette.value (Starlette.set_cookies response)
  | Raise _ => []
  end.

(** The session identifiers handed out by the callbacks of a run. *)
Fixpoint issued_ids (config : OIDCSettings) (world : World) (calls : list Call)
  (st : State) : list string :=
  match calls with
  | [] => []
  | c :: rest =>
      (match c with
       | Callback request =>
           cookie_values (fst (OIDCController.callback config world request st))
       | _ => []
       end ++ issued_ids config world rest (step config world c st))%list
  end.

(** The response of a logout: a redirect to [/login] that clears the
    [session_id] cookie. *)
Definition logout_response : Starlette.Response :=
  Starlette.delete_cookie (Starlette.RedirectResponse "/login") "session_id".

(** The required settings, those declared with [Field(...)]. *)
Definition REQUIRED : list string :=
  ["CLIENT_ID"; "CLIENT_SECRET"; "ISSUER_URL"; "AUTHORIZE_URL"; "TOKEN_URL";
   "USERINFO_URL"].

(** Every error the construction of the settings can report, in the
    order of the fields. *)
Definition all_errors (environ : gmap string string) : Settings.ValidationError :=
  (Settings.errors (Settings.required_str environ "CLIENT_ID")
   ++ Settings.errors (Settings.required_str environ "CLIENT_SECRET")
   ++ Settings.errors (Settings.required_str environ "ISSUER_URL")
   ++ Settings.errors (Settings.required_str environ "AUTHORIZE_URL")
   ++ Settings.errors (Settings.required_str environ "TOKEN_URL")
   ++ Settings.errors (Settings.required_str environ "USERINFO_URL")
   ++ Settings.errors
        (Settings.optional_str environ "REDIRECT_URI"
           "http://localhost:8000/oidc/callback")
   ++ Settings.errors (Settings.optional_str environ "SCOPE" "openid email profile")
   ++ Settings.errors (Settings.optional_bool environ "COOKIE_SECURE" false)
   ++ Settings.errors (Settings.optional_samesite environ "COOKIE_SAMESITE" lax))%list.

(** The number of characters of a text: its bytes that begin one. *)
Fixpoint count_chars (s : string) : nat :=
  match s with
  | EmptyString => O
  | String c rest =>
      if is_continuation c then count_chars rest else S (count_chars rest)
  end.

(** The two kinds of request the controller sends to the provider. *)
Definition to_token_endpoint (config : OIDCSettings) (rq : Httpx.Request) : Prop :=
  Httpx.method rq = Httpx.POST
  /\ Httpx.url rq = TOKEN_URL config
  /\ In ("client_id", PyStr (CLIENT_ID config)) (Httpx.data rq)
  /\ In ("client_secret", PyStr (CLIENT_SECRET config)) (Httpx.data rq)
  /\ Httpx.headers rq = [("Accept", Httpx.Text "application/json")].

Definition to_userinfo_endpoint (config : OIDCSettings) (rq : Httpx.Request) : Prop :=
  Httpx.method rq = Httpx.GET
  /\ Httpx.url rq = USERINFO_URL config
  /\ Httpx.data rq = []
  /\ exists access_token,
       Httpx.headers rq = [("Authorization", Httpx.Bearer access_token)].

(** The characters of a UUID in its text form. *)
Definition UUID_ALPHABET : string := "0123456789abcdef-".

(** * Sample inputs *)

Module Sample.

Definition config : OIDCSettings :=
  {| CLIENT_ID := "abc123";
     CLIENT_SECRET := "s3cret";
     ISSUER_URL := "https://idp.example";
     AUTHORIZE_URL := "https://idp.example/authorize";
     TOKEN_URL := "https://idp.example/token";
     USERINFO_URL := "https://idp.example/userinfo";
     REDIRECT_URI := "http://localhost:8000/oidc/callback";
     SCOPE := "openid email profile";
     COOKIE_SECURE := false;
     COOKIE_SAMESITE := lax |}.

Definition answer (status : Z) (body : list (string * PyVal)) : Httpx.Outcome :=
  Httpx.Responded
    {| Httpx.status_code := status; Httpx.json := Some (PyDict (list_to_map body)) |}.

(** A provider with one fixed answer per endpoint: the code exchange and
    the token exchange are told apart by the first form field. *)
Definition provider_of (token exchange userinfo : Httpx.Outcome)
  (log : list Httpx.Request) (rq : Httpx.Request) : Httpx.Outcome :=
  match Httpx.method rq with
  | Httpx.GET => userinfo
  | Httpx.POST =>
      match Httpx.data rq with
      | (k, _) :: _ => if String.eqb k "client_id" then token else exchange
      | [] => exchange
      end
  end.

Definition world_of (token exchange userinfo : Httpx.Outcome) : World :=
  {| os_urandom := fun n => Z.of_nat n; provider := provider_of token exchange userinfo |}.

(** Scenario 2 of the specification. *)
Definition world : World :=
  world_of (answer 200 [("access_token", PyStr "tok1")])
           (answer 200 [("access_token", PyStr "tok2")])
           (answer 200 [("email", PyStr "a@b.com")]).

(** The token endpoint refuses (scenario 6). *)
Definition world_refusing : World :=
  world_of (answer 403 [("error", PyStr "access_denied")])
           (answer 403 [("error", PyStr "access_denied")])
           (answer 200 [("email", PyStr "a@b.com")]).

(** The userinfo endpoint refuses the token it is shown. *)
Definition world_userinfo_401 : World :=
  world_of (answer 200 [("access_token", PyStr "tok1")])
           (answer 200 [("access_token", PyStr "tok2")])
           (answer 401 [("error", PyStr "invalid_token")]).

(** The token endpoint answers 200 with an object that has no token. *)
Definition world_no_token : World :=
  world_of (answer 200 []) (answer 200 []) (answer 200 [("email", PyStr "a@b.com")]).

(** The random source returns the same sixteen bytes at every call. *)
Definition world_repeating : World :=
  {| os_urandom := fun _ => 0;
     provider :=
       provider_of (answer 200 [("access_token", PyStr "tok1")])
                   (answer 200 [("access_token", PyStr "tok2")])
                   (answer 200 [("email", PyStr "a@b.com")]) |}.

(** The token endpoint answers a token exchange with 200 and an object
    that holds no token. *)
Definition world_exchange_empty : World :=
  world_of (answer 200 [("access_token", PyStr "tok1")])
           (answer 200 [])
           (answer 200 [("email", PyStr "a@b.com")]).

Definition request_with_code : Starlette.Request :=
  {| Starlette.query_params := {[ "code" := "xyz" ]}; Starlette.cookies := ∅ |}.

Definition request_without_code : Starlette.Request :=
  {| Starlette.query_params := ∅; Starlette.cookies := ∅ |}.

Definition request_with_cookie (session_id : string) : Starlette.Request :=
  {| Starlette.query_params := ∅;
     Starlette.cookies := {[ "session_id" := session_id ]} |}.

(** The state after one successful login in [world]. *)
Definition logged_in : State :=
  step config world (Callback request_with_code) initial_state.

Definition session_id : string := next_uuid world initial_state.

(** The record that login stores. *)
Definition record : gmap string PyVal :=
  {[ "user" := PyDict {[ "email" := PyStr "a@b.com" ]};
     "access_token" := PyStr "tok1" ]}.

(** The request [exchange_token] sends for that record and [svc-a]. *)
Definition exchange_request : Httpx.Request :=
  OIDCController.exchange_request config (PyStr "tok1") "svc-a".

(** An environment that sets the six required variables, [CLIENT_ID] to
    the empty text. *)
Definition environ_empty_client_id : gmap string string :=
  list_to_map
    [("OIDC_CLIENT_ID", ""); ("OIDC_CLIENT_SECRET", "s3cret");
     ("OIDC_ISSUER_URL", "https://idp.example");
     ("OIDC_AUTHORIZE_URL", "https://idp.example/authorize");
     ("OIDC_TOKEN_URL", "https://idp.example/token");
     ("OIDC_USERINFO_URL", "https://idp.example/userinfo")].

Definition environ : gmap string string :=
  <["OIDC_CLIENT_ID" := "abc123"]> environ_empty_client_id.

(** An answer whose body is no JSON: [json()] raises on it. *)
Definition unreadable (status : Z) : Httpx.Outcome :=
  Httpx.Responded {| Httpx.status_code := status; Httpx.json := None |}.

(** The token endpoint answers 200 with a body that is no JSON. *)
Definition world_token_unreadable : World :=
  world_of (unreadable 200) (unreadable 200)
           (answer 200 [("email", PyStr "a@b.com")]).

(** The userinfo endpoint answers 401 with an empty body. *)
Definition world_userinfo_unreadable : World :=
  world_of (answer 200 [("access_token", PyStr "tok1")])
           (answer 200 [("access_token", PyStr "tok2")])
           (unreadable 401).

(** The token endpoint answers 200 without a token, and the userinfo
    endpoint answers the request made without one by 401 and an empty
    body. *)
Definition world_no_token_refused : World :=
  world_of (answer 200 []) (answer 200 []) (unreadable 401).

(** The provider cannot be reached. *)
Definition world_offline : World :=
  world_of Httpx.Failed Httpx.Failed Httpx.Failed.

(** A request to the downstream endpoint of a logged-in browser. *)
Definition downstream_request : Main.Request :=
  {| Main.state_user := PyDict {[ "email" := PyStr "a@b.com" ]};
     Main.request := request_with_cookie session_id |}.

(** The provider answers a token exchange with a long token. *)
Definition world_long_token : World :=
  world_of (answer 200 [("access_token", PyStr "tok1")])
           (answer 200 [("access_token", PyStr "0123456789abcdefghijklmnop")])
           (answer 200 [("email", PyStr "a@b.com")]).

End Sample.

(** * Properties *)

Example uuid_str_zero :
  UUID.to_str (UUID.uuid4_int 0) = "00000000-0000-4000-8000-000000000000".
Proof. vm_compute. reflexivity. Qed.

Example uuid_str_ones :
  UUID.to_str (UUID.uuid4_int (-1)) = "ffffffff-ffff-4fff-bfff-ffffffffffff".
Proof. vm_compute. reflexivity. Qed.

(** ** Text *)

Section Text.

(** stdpp keeps [String.append] from unfolding under [simpl]; these are
    its two defining equations. *)
Lemma append_nil_l (s : string) : "" +:+ s = s.
Proof. reflexivity. Qed.

Lemma append_cons (c : ascii) (s t : string) :
  String c s +:+ t = String c (s +:+ t).
Proof. reflexivity. Qed.

Lemma append_nil_r (s : string) : s +:+ "" = s.
Proof.
  induction s as [|c s IH]; [reflexivity|]. now rewrite append_cons, IH.
Qed.

Lemma append_assoc (a b c : string) : (a +:+ b) +:+ c = a +:+ (b +:+ c).
Proof.
  induction a as [|x a IH]; [reflexivity|]. now rewrite !append_cons, IH.
Qed.

Lemma length_append (a b : string) :
  String.length (a +:+ b) = (String.length a + String.length b)%nat.
Proof.
  induction a as [|x a IH]; [reflexivity|].
  rewrite append_cons. simpl. now rewrite IH.
Qed.

Lemma append_snoc_inj (a b : string) (x y : ascii) :
  a +:+ String x "" = b +:+ String y "" -> a = b /\ x = y.
Proof.
  revert b. induction a as [|c a IH]; intros [|d b] H;
    rewrite ?append_cons, ?append_nil_l in H.
  - injection H as ->. split; reflexivity.
  - injection H as -> H. destruct b; discriminate H.
  - injection H as -> H. destruct a; discriminate H.
  - injection H as -> H. destruct (IH _ H) as [-> ->]. split; reflexivity.
Qed.

Lemma list_ascii_append (a b : string) :
  list_ascii_of_string (a +:+ b)
  = (list_ascii_of_string a ++ list_ascii_of_string b)%list.
Proof.
  induction a as [|x a IH]; [reflexivity|].
  rewrite append_cons. simpl. now rewrite IH.
Qed.

End Text.

(** ** Percent-encoding *)


Lemma quote_append (safe a b : string) :
  Urllib.quote safe (a +:+ b) = Urllib.quote safe a +:+ Urllib.quote safe b.
Proof.
  induction a as [|c a IH]; [reflexivity|].
  rewrite append_cons. simpl. rewrite IH. now rewrite append_assoc.
Qed.

Lemma quote_kept (safe s : string) :
  all_kept safe s = true -> Urllib.quote safe s = s.
Proof.
  unfold all_kept. induction s as [|c s IH]; simpl; [reflexivity|].
  intros H. apply andb_prop in H as [Hc Hs].
  unfold Urllib.quote_byte. unfold kept in Hc. rewrite Hc.
  rewrite append_cons, append_nil_l. now rewrite IH.
Qed.

Lemma all_kept_append (safe a b : string) :
  all_kept safe (a +:+ b) = all_kept safe a && all_kept safe b.
Proof. unfold all_kept. rewrite list_ascii_append. apply forallb_app. Qed.

Lemma all_kept_substring (safe s : string) (n m : nat) :
  all_kept safe s = true -> all_kept safe (substring n m s) = true.
Proof.
  unfold all_kept. revert n m.
  induction s as [|c s IH]; intros n m H.
  - destruct n, m; reflexivity.
  - simpl in H. apply andb_prop in H as [Hc Hs].
    destruct n as [|n]; simpl.
    + destruct m as [|m]; simpl; [reflexivity|].
      rewrite Hc. simpl. now apply IH.
    + now apply IH.
Qed.

(** ** Session identifiers *)

Module UUIDFacts.

Import UUID UUIDSpec.


Lemma hex_value_char (d : Z) : 0 <= d < 16 -> hex_value (hex_char d) = d.
Proof.
  intros H.
  assert (E : d = 0 \/ d = 1 \/ d = 2 \/ d = 3 \/ d = 4 \/ d = 5 \/ d = 6
              \/ d = 7 \/ d = 8 \/ d = 9 \/ d = 10 \/ d = 11 \/ d = 12
              \/ d = 13 \/ d = 14 \/ d = 15) by lia.
  repeat (destruct E as [-> | E]; [reflexivity|]). subst d. reflexivity.
Qed.

Lemma hex_char_inj (d e : Z) :
  0 <= d < 16 -> 0 <= e < 16 -> hex_char d = hex_char e -> d = e.
Proof.
  intros Hd He H.
  rewrite <- (hex_value_char d Hd), <- (hex_value_char e He).
  now rewrite H.
Qed.

Lemma length_format_hex (w : nat) (n : Z) : String.length (format_hex w n) = w.
Proof.
  revert n. induction w as [|w IH]; intros n; simpl; [reflexivity|].
  rewrite length_append, IH. simpl. lia.
Qed.

Lemma format_hex_inj (w : nat) (a b : Z) :
  0 <= a < 16 ^ Z.of_nat w -> 0 <= b < 16 ^ Z.of_nat w ->
  format_hex w a = format_hex w b -> a = b.
Proof.
  revert a b. induction w as [|w IH]; intros a b Ha Hb H.
  - simpl in Ha, Hb. lia.
  - simpl in H. apply append_snoc_inj in H as [Hq Hr].
    rewrite Nat2Z.inj_succ, Z.pow_succ_r in Ha, Hb by lia.
    apply hex_char_inj in Hr; [| apply Z.mod_pos_bound; lia ..].
    apply IH in Hq.
    + rewrite (Z.div_mod a 16), (Z.div_mod b 16) by lia. congruence.
    + split; [apply Z.div_pos; lia | apply Z.div_lt_upper_bound; lia].
    + split; [apply Z.div_pos; lia | apply Z.div_lt_upper_bound; lia].
Qed.

(** The digits are all unreserved characters. *)
Lemma kept_hex_char (safe : string) (d : Z) :
  0 <= d < 16 -> kept safe (hex_char d) = true.
Proof.
  intros H.
  assert (E : d = 0 \/ d = 1 \/ d = 2 \/ d = 3 \/ d = 4 \/ d = 5 \/ d = 6
              \/ d = 7 \/ d = 8 \/ d = 9 \/ d = 10 \/ d = 11 \/ d = 12
              \/ d = 13 \/ d = 14 \/ d = 15) by lia.
  repeat (destruct E as [-> | E]; [reflexivity|]). subst d. reflexivity.
Qed.

Lemma all_kept_format_hex (safe : string) (w : nat) (n : Z) :
  all_kept safe (format_hex w n) = true.
Proof.
  revert n. induction w as [|w IH]; intros n; simpl; [reflexivity|].
  rewrite all_kept_append, IH. simpl. unfold all_kept. simpl.
  rewrite kept_hex_char; [reflexivity | apply Z.mod_pos_bound; lia].
Qed.

Lemma all_kept_to_str (safe : string) (n : Z) :
  all_kept safe (to_str n) = true.
Proof.
  unfold to_str, dashed, slice, slice_from, hex.
  pose proof (all_kept_format_hex safe 32 n) as H.
  repeat rewrite all_kept_append.
  repeat rewrite (all_kept_substring safe _ _ _ H).
  reflexivity.
Qed.

(** [str(uuid)] is never the empty text, so it is never falsy. *)
Lemma to_str_truthy (n : Z) : str_truthy (to_str n) = true.
Proof.
  unfold to_str, dashed. destruct (slice 0 8 (hex n)); reflexivity.
Qed.


Lemma undashed_dashed (x : string) :
  String.length x = 32%nat -> undashed (dashed x) = x.
Proof.
  intros H.
  do 32 (destruct x as [|? x]; [discriminate H|]).
  destruct x; [reflexivity | discriminate H].
Qed.

Lemma dashed_inj (x y : string) :
  String.length x = 32%nat -> String.length y = 32%nat ->
  dashed x = dashed y -> x = y.
Proof.
  intros Hx Hy H.
  rewrite <- (undashed_dashed x Hx), <- (undashed_dashed y Hy).
  now rewrite H.
Qed.

(** Forcing the version and variant bits keeps the value in 128 bits. *)
Lemma set_version4_high_bits (x : Z) (i : Z) :
  0 <= x < 2 ^ 128 -> 128 <= i -> Z.testbit (set_version4 x) i = false.
Proof.
  intros Hx Hi. unfold set_version4.
  change (Z.shiftl 0x8000 48) with (2 ^ 63).
  change (Z.shiftl 4 76) with (2 ^ 78).
  rewrite Z.lor_spec, Z.land_spec, Z.lor_spec, Z.land_spec.
  rewrite (Z.pow2_bits_false 63 i), (Z.pow2_bits_false 78 i) by lia.
  replace (Z.testbit x i) with false; [reflexivity|].
  symmetry. rewrite <- (Z.mod_small x (2 ^ 128)) by lia.
  apply Z.mod_pow2_bits_high. lia.
Qed.

Lemma set_version4_nonneg (x : Z) : 0 <= x -> 0 <= set_version4 x.
Proof.
  intros Hx. unfold set_version4.
  apply Z.lor_nonneg. split; [| now vm_compute].
  apply Z.land_nonneg. left.
  apply Z.lor_nonneg. split; [| now vm_compute].
  apply Z.land_nonneg. now left.
Qed.

Lemma uuid4_int_range (r : Z) : 0 <= uuid4_int r < 2 ^ 128.
Proof.
  unfold uuid4_int, from_random.
  assert (Hx : 0 <= r mod 2 ^ 128 < 2 ^ 128) by (apply Z.mod_pos_bound; lia).
  set (x := r mod 2 ^ 128) in *.
  pose proof (set_version4_nonneg x (proj1 Hx)) as Hn.
  split; [exact Hn|].
  destruct (Z.eq_dec (set_version4 x) 0) as [-> | Hz]; [lia|].
  apply Z.log2_lt_pow2; [lia|].
  destruct (Z_lt_le_dec (Z.log2 (set_version4 x)) 128) as [Hlt | Hge]; [exact Hlt|].
  pose proof (Z.bit_log2 (set_version4 x) ltac:(lia)) as Hb.
  rewrite (set_version4_high_bits x _ Hx Hge) in Hb. discriminate Hb.
Qed.

(** Two identifiers are the same text only for the same 128-bit value. *)
Lemma to_str_uuid4_inj (r1 r2 : Z) :
  to_str (uuid4_int r1) = to_str (uuid4_int r2) -> uuid4_int r1 = uuid4_int r2.
Proof.
  unfold to_str, hex. intros H.
  apply dashed_inj in H; [| apply length_format_hex ..].
  apply format_hex_inj in H; [exact H | |].
  - change (16 ^ Z.of_nat 32) with (2 ^ 128). apply uuid4_int_range.
  - change (16 ^ Z.of_nat 32) with (2 ^ 128). apply uuid4_int_range.
Qed.

End UUIDFacts.

(** ** Runs of the four methods *)

Section Runs.

Variable config : OIDCSettings.
Variable world : World.

Lemma str_truthy_nonempty (s : string) : s <> "" -> str_truthy s = true.
Proof. destruct s; [congruence | reflexivity]. Qed.

Lemma str_truthy_false (s : string) : str_truthy s = false -> s = "".
Proof. destruct s; [reflexivity | discriminate]. Qed.

(** The run of [callback] when both provider calls answer with JSON. *)
Lemma callback_run (request : Starlette.Request) (st : State)
    (code : string) (token_resp user_resp : Httpx.Response)
    (tokens : gmap string PyVal) (user_info : PyVal) :
  Starlette.query_params request !! "code" = Some code ->
  str_truthy code = true ->
  provider world (http_log st) (OIDCController.token_request config code)
    = Httpx.Responded token_resp ->
  Httpx.status_code token_resp = 200 ->
  Httpx.json token_resp = Some (PyDict tokens) ->
  provider world
    (http_log st ++ [OIDCController.token_request config code])
    (OIDCController.userinfo_request config (dict_get tokens "access_token"))
    = Httpx.Responded user_resp ->
  Httpx.json user_resp = Some user_info ->
  OIDCController.callback config world request st
  = (Return
       (Starlette.set_cookie (Starlette.RedirectResponse "/")
          (OIDCController.session_cookie config (next_uuid world st))),
     {| session_store :=
          <[next_uuid world st :=
              OIDCController.session_record user_info
                (dict_get tokens "access_token")]> (session_store st);
        urandom_calls := S (urandom_calls st);
        http_log :=
          (http_log st ++ [OIDCController.token_request config code])
            ++ [OIDCController.userinfo_request config
                  (dict_get tokens "access_token")] |}).
Proof.
  intros Hcode Htruthy Htok Hstatus Hjson Huser Hujson.
  unfold OIDCController.callback. rewrite Hcode.
  unfold opt_truthy. rewrite Htruthy.
  unfold bind, send, json, py_get, ret, uuid4_str, store_setitem, next_uuid.
  simpl. rewrite Htok, Hstatus, Hjson. simpl. rewrite Huser, Hujson.
  reflexivity.
Qed.

(** Without a usable [code] nothing happens but the 400 answer. *)
Lemma callback_missing_code (request : Starlette.Request) (st : State) :
  opt_truthy (Starlette.query_params request !! "code") = false ->
  OIDCController.callback config world request st
  = (Return (Starlette.JSONResponse (error_body "Missing code") 400), st).
Proof.
  intros H. unfold OIDCController.callback. rewrite H. reflexivity.
Qed.

(** A token endpoint answering anything but 200 ends the callback. *)
Lemma callback_token_refused (request : Starlette.Request) (st : State)
    (code : string) (token_resp : Httpx.Response) :
  Starlette.query_params request !! "code" = Some code ->
  str_truthy code = true ->
  provider world (http_log st) (OIDCController.token_request config code)
    = Httpx.Responded token_resp ->
  Httpx.status_code token_resp <> 200 ->
  OIDCController.callback config world request st
  = (Return (Starlette.JSONResponse (error_body "Failed to get token") 400),
     {| session_store := session_store st;
        urandom_calls := urandom_calls st;
        http_log := http_log st ++ [OIDCController.token_request config code] |}).
Proof.
  intros Hcode Htruthy Htok Hstatus.
  unfold OIDCController.callback. rewrite Hcode.
  unfold opt_truthy. rewrite Htruthy.
  unfold bind, send, ret. simpl. rewrite Htok.
  apply Z.eqb_neq in Hstatus. rewrite Hstatus. reflexivity.
Qed.

(** [exchange_token] stops before any provider call when the session is
    unknown or its stored token is falsy. *)
Lemma exchange_token_unknown (session_id target_client : string) (st : State) :
  session_store st !! session_id = None ->
  OIDCController.exchange_token config world session_id target_client st
  = (Return PyNone, st).
Proof.
  intros H. unfold OIDCController.exchange_token, bind, store_contains.
  rewrite H. reflexivity.
Qed.

Lemma exchange_token_no_subject (session_id target_client : string) (st : State)
    (record : gmap string PyVal) :
  session_store st !! session_id = Some record ->
  py_truthy (dict_get record "access_token") = false ->
  OIDCController.exchange_token config world session_id target_client st
  = (Return PyNone, st).
Proof.
  intros H Hfalsy.
  unfold OIDCController.exchange_token, bind, store_contains, store_getitem.
  rewrite bool_decide_eq_true_2 by (rewrite H; eauto).
  cbn [negb]. rewrite H. rewrite Hfalsy. reflexivity.
Qed.

Lemma exchange_token_refused (session_id target_client : string) (st : State)
    (record : gmap string PyVal) (exchange_resp : Httpx.Response) :
  session_store st !! session_id = Some record ->
  py_truthy (dict_get record "access_token") = true ->
  provider world (http_log st)
    (OIDCController.exchange_request config (dict_get record "access_token")
       target_client)
    = Httpx.Responded exchange_resp ->
  Httpx.status_code exchange_resp <> 200 ->
  OIDCController.exchange_token config world session_id target_client st
  = (Return PyNone,
     {| session_store := session_store st;
        urandom_calls := urandom_calls st;
        http_log :=
          http_log st
            ++ [OIDCController.exchange_request config
                  (dict_get record "access_token") target_client] |}).
Proof.
  intros H Htruthy Hresp Hstatus.
  unfold OIDCController.exchange_token, bind, store_contains, store_getitem.
  rewrite bool_decide_eq_true_2 by (rewrite H; eauto).
  cbn [negb]. rewrite H. rewrite Htruthy. cbn [negb].
  unfold send. rewrite Hresp.
  apply Z.eqb_neq in Hstatus. rewrite Hstatus. reflexivity.
Qed.

Lemma exchange_token_granted (session_id target_client : string) (st : State)
    (record new_tokens : gmap string PyVal) (exchange_resp : Httpx.Response) :
  session_store st !! session_id = Some record ->
  py_truthy (dict_get record "access_token") = true ->
  provider world (http_log st)
    (OIDCController.exchange_request config (dict_get record "access_token")
       target_client)
    = Httpx.Responded exchange_resp ->
  Httpx.status_code exchange_resp = 200 ->
  Httpx.json exchange_resp = Some (PyDict new_tokens) ->
  OIDCController.exchange_token config world session_id target_client st
  = (Return (dict_get new_tokens "access_token"),
     {| session_store := session_store st;
        urandom_calls := urandom_calls st;
        http_log :=
          http_log st
            ++ [OIDCController.exchange_request config
                  (dict_get record "access_token") target_client] |}).
Proof.
  intros H Htruthy Hresp Hstatus Hjson.
  unfold OIDCController.exchange_token, bind, store_contains, store_getitem.
  rewrite bool_decide_eq_true_2 by (rewrite H; eauto).
  cbn [negb]. rewrite H. rewrite Htruthy. cbn [negb].
  unfold send. rewrite Hresp. rewrite Hstatus. cbn [Z.eqb Pos.eqb negb].
  unfold json. rewrite Hjson. reflexivity.
Qed.

(** Whatever [exchange_token] returns that is not [None] was sent by the
    provider with status 200, for a known session with a usable token. *)
Lemma exchange_token_value (session_id target_client : string) (st : State)
    (v : PyVal) :
  fst (OIDCController.exchange_token config world session_id target_client st)
    = Return v ->
  v <> PyNone ->
  exists record exchange_resp,
    session_store st !! session_id = Some record
    /\ py_truthy (dict_get record "access_token") = true
    /\ provider world (http_log st)
         (OIDCController.exchange_request config
            (dict_get record "access_token") target_client)
       = Httpx.Responded exchange_resp
    /\ Httpx.status_code exchange_resp = 200.
Proof.
  intros Hret Hv.
  destruct (session_store st !! session_id) as [record|] eqn:Hrec.
  2: { rewrite exchange_token_unknown in Hret by exact Hrec.
       simpl in Hret. congruence. }
  destruct (py_truthy (dict_get record "access_token")) eqn:Htruthy.
  2: { rewrite (exchange_token_no_subject _ _ _ record) in Hret by assumption.
       simpl in Hret. congruence. }
  destruct (provider world (http_log st)
              (OIDCController.exchange_request config
                 (dict_get record "access_token") target_client))
    as [exchange_resp|] eqn:Hresp.
  - destruct (Z.eq_dec (Httpx.status_code exchange_resp) 200) as [Hs|Hs].
    + exists record, exchange_resp. repeat split; assumption.
    + rewrite (exchange_token_refused _ _ _ record exchange_resp) in Hret
        by assumption.
      simpl in Hret. congruence.
  - revert Hret.
    unfold OIDCController.exchange_token, bind, store_contains, store_getitem.
    rewrite bool_decide_eq_true_2 by (rewrite Hrec; eauto).
    cbn [negb]. rewrite Hrec. rewrite Htruthy. cbn [negb].
    unfold send. rewrite Hresp. simpl. discriminate.
Qed.

(** [exchange_token] touches neither the session store nor the random
    source: at most it adds a request to the log. *)
Lemma exchange_token_state (session_id target_client : string) (st : State) :
  exists log,
    snd (OIDCController.exchange_token config world session_id target_client st)
    = {| session_store := session_store st;
         urandom_calls := urandom_calls st;
         http_log := log |}.
Proof.
  unfold OIDCController.exchange_token, bind, store_contains, store_getitem.
  destruct (session_store st !! session_id) as [record|] eqn:Hrec.
  2: { rewrite bool_decide_eq_false_2 by (intros [? ?]; discriminate).
       exists (http_log st). now destruct st. }
  rewrite bool_decide_eq_true_2 by eauto.
  cbn [negb]. rewrite Hrec.
  destruct (py_truthy (dict_get record "access_token"));
    [|exists (http_log st); now destruct st].
  cbn [negb]. unfold send.
  destruct (provider world _ _) as [exchange_resp|]; [|eexists; reflexivity].
  destruct (Z.eqb (Httpx.status_code exchange_resp) 200); [|eexists; reflexivity].
  cbn [negb]. unfold json.
  destruct (Httpx.json exchange_resp) as [v|]; [|eexists; reflexivity].
  destruct v; eexists; reflexivity.
Qed.

Lemma exchange_token_store (session_id target_client : string) (st : State) :
  session_store
    (snd (OIDCController.exchange_token config world session_id target_client st))
  = session_store st.
Proof.
  destruct (exchange_token_state session_id target_client st) as [log ->].
  reflexivity.
Qed.

(** The run of [login]: one random draw, one redirect. *)
Lemma login_run (request : Starlette.Request) (st : State) :
  OIDCController.login config world request st
  = (Return
       (Starlette.RedirectResponse
          (AUTHORIZE_URL config +:+ "?" +:+ "client_id=" +:+ CLIENT_ID config
             +:+ "&" +:+ "response_type=" +:+ "code"
             +:+ "&" +:+ "scope=" +:+ SCOPE config
             +:+ "&" +:+ "redirect_uri=" +:+ REDIRECT_URI config
             +:+ "&" +:+ "state=" +:+ next_uuid world st)),
     {| session_store := session_store st;
        urandom_calls := S (urandom_calls st);
        http_log := http_log st |}).
Proof.
  unfold OIDCController.login, bind, uuid4_str, ret, next_uuid.
  cbn [map String.concat fst snd]. rewrite !append_assoc. reflexivity.
Qed.

(** The run of [logout]: the record the cookie names, if any, is gone. *)
Lemma logout_run (request : Starlette.Request) (st : State) :
  OIDCController.logout request st
  = (Return logout_response,
     {| session_store :=
          match Starlette.cookies request !! "session_id" with
          | Some session_id =>
              if str_truthy session_id
              then delete session_id (session_store st)
              else session_store st
          | None => session_store st
          end;
        urandom_calls := urandom_calls st;
        http_log := http_log st |}).
Proof.
  unfold OIDCController.logout, bind, store_contains, store_delitem, ret.
  destruct st as [store n log].
  destruct (Starlette.cookies request !! "session_id") as [sid|]; [|reflexivity].
  unfold opt_truthy.
  destruct (str_truthy sid); [|reflexivity].
  simpl. destruct (store !! sid) as [record|] eqn:Hrec.
  - rewrite bool_decide_eq_true_2 by eauto.
    simpl. rewrite Hrec. reflexivity.
  - rewrite bool_decide_eq_false_2 by (intros [? ?]; discriminate).
    rewrite delete_id by exact Hrec. reflexivity.
Qed.

(** Every run of [callback] either leaves the store and the random source
    alone and sets no cookie, or is the successful run: one draw, one record
    written under the drawn identifier, one cookie carrying it. *)
Lemma callback_cases (request : Starlette.Request) (st : State) :
  (session_store (snd (OIDCController.callback config world request st))
     = session_store st
   /\ urandom_calls (snd (OIDCController.callback config world request st))
      = urandom_calls st
   /\ cookie_values (fst (OIDCController.callback config world request st)) = [])
  \/ (exists user_info access_token,
        fst (OIDCController.callback config world request st)
          = Return
              (Starlette.set_cookie (Starlette.RedirectResponse "/")
                 (OIDCController.session_cookie config (next_uuid world st)))
        /\ session_store (snd (OIDCController.callback config world request st))
           = <[next_uuid world st :=
                 OIDCController.session_record user_info access_token]>
               (session_store st)
        /\ urandom_calls (snd (OIDCController.callback config world request st))
           = S (urandom_calls st)).
Proof.
  destruct (opt_truthy (Starlette.query_params request !! "code")) eqn:Hcode.
  2: { rewrite callback_missing_code by exact Hcode. left. auto. }
  destruct (Starlette.query_params request !! "code") as [code|] eqn:Hq;
    [|discriminate Hcode].
  simpl in Hcode.
  destruct (provider world (http_log st)
              (OIDCController.token_request config code)) as [token_resp|] eqn:Htok.
  2: { left. unfold OIDCController.callback. rewrite Hq. unfold opt_truthy.
       rewrite Hcode. unfold bind, send. simpl. rewrite Htok. auto. }
  destruct (Z.eq_dec (Httpx.status_code token_resp) 200) as [Hs|Hs].
  2: { rewrite (callback_token_refused request st code token_resp) by assumption.
       left. auto. }
  destruct (Httpx.json token_resp) as [tokens|] eqn:Hjson.
  2: { left. unfold OIDCController.callback. rewrite Hq. unfold opt_truthy.
       rewrite Hcode. unfold bind, send, json. simpl. rewrite Htok, Hs, Hjson.
       auto. }
  destruct tokens as [| | | | | |tokens];
    try solve [left; unfold OIDCController.callback; rewrite Hq;
               unfold opt_truthy; rewrite Hcode;
               unfold bind, send, json, py_get, ret; simpl;
               rewrite Htok, Hs, Hjson; auto].
  destruct (provider world
              (http_log st ++ [OIDCController.token_request config code])
              (OIDCController.userinfo_request config
                 (dict_get tokens "access_token"))) as [user_resp|] eqn:Huser.
  2: { left. unfold OIDCController.callback. rewrite Hq. unfold opt_truthy.
       rewrite Hcode. unfold bind, send, json, py_get, ret. simpl.
       rewrite Htok, Hs, Hjson. simpl. rewrite Huser. auto. }
  destruct (Httpx.json user_resp) as [user_info|] eqn:Hujson.
  2: { left. unfold OIDCController.callback. rewrite Hq. unfold opt_truthy.
       rewrite Hcode. unfold bind, send, json, py_get, ret. simpl.
       rewrite Htok, Hs, Hjson. simpl. rewrite Huser, Hujson. auto. }
  right. exists user_info, (dict_get tokens "access_token").
  rewrite (callback_run request st code token_resp user_resp tokens user_info)
    by assumption.
  auto.
Qed.

End Runs.

(** ** What the four methods do to the session store *)

Section Store.

Variable config : OIDCSettings.
Variable world : World.

Lemma login_store (request : Starlette.Request) (st : State) :
  session_store (snd (OIDCController.login config world request st))
  = session_store st.
Proof. rewrite login_run. reflexivity. Qed.

Lemma logout_store (request : Starlette.Request) (st : State) :
  session_store (snd (OIDCController.logout request st)) = session_store st
  \/ exists session_id,
       Starlette.cookies request !! "session_id" = Some session_id
       /\ str_truthy session_id = true
       /\ session_store (snd (OIDCController.logout request st))
          = delete session_id (session_store st).
Proof.
  rewrite logout_run. cbn [snd session_store].
  destruct (Starlette.cookies request !! "session_id") as [sid|]; [|now left].
  destruct (str_truthy sid) eqn:Hsid; [|now left].
  right. exists sid. auto.
Qed.

(** The random source is only ever consumed. *)
Lemma step_urandom_calls (c : Call) (st : State) :
  (urandom_calls st <= urandom_calls (step config world c st))%nat.
Proof.
  destruct c as [request|request|request|session_id target_client]; unfold step.
  - rewrite login_run. simpl. lia.
  - destruct (callback_cases config world request st) as [(_ & H & _)|(? & ? & _ & _ & H)];
      rewrite H; lia.
  - rewrite logout_run. simpl. lia.
  - destruct (exchange_token_state config world session_id target_client st)
      as [log ->].
    simpl. lia.
Qed.

Lemma run_urandom_calls (calls : list Call) (st : State) :
  (urandom_calls st <= urandom_calls (run config world calls st))%nat.
Proof.
  unfold run. revert st.
  induction calls as [|c calls IH]; intros st; cbn [fold_left]; [lia|].
  specialize (IH (step config world c st)).
  pose proof (step_urandom_calls c st). lia.
Qed.

(** In a state reached from the empty store, every key of the store is an
    identifier drawn earlier, hence a non-empty text. *)
Lemma reachable_keys (st : State) :
  reachable config world st ->
  forall k record, session_store st !! k = Some record ->
    exists i, (i < urandom_calls st)%nat
      /\ k = UUID.to_str (UUID.uuid4_int (os_urandom world i)).
Proof.
  induction 1 as [|c st Hst IH]; intros k record Hk.
  - simpl in Hk. rewrite lookup_empty in Hk. discriminate.
  - pose proof (step_urandom_calls c st) as Hmono.
    destruct c as [request|request|request|session_id target_client];
      unfold step in Hk, Hmono |- *.
    + rewrite login_store in Hk. destruct (IH _ _ Hk) as (i & Hi & ->).
      exists i. split; [lia | reflexivity].
    + destruct (callback_cases config world request st)
        as [(Hs & Hn & _)|(ui & at_ & _ & Hs & Hn)]; rewrite Hs in Hk.
      * destruct (IH _ _ Hk) as (i & Hi & ->). exists i.
        split; [lia | reflexivity].
      * rewrite Hn. apply lookup_insert_Some in Hk as [[<- _]|[_ Hk]].
        -- exists (urandom_calls st). split; [lia | reflexivity].
        -- destruct (IH _ _ Hk) as (i & Hi & ->). exists i.
           split; [lia | reflexivity].
    + destruct (logout_store request st) as [Hs|(sid & _ & _ & Hs)];
        rewrite Hs in Hk.
      * destruct (IH _ _ Hk) as (i & Hi & ->). exists i.
        split; [lia | reflexivity].
      * apply lookup_delete_Some in Hk as [_ Hk].
        destruct (IH _ _ Hk) as (i & Hi & ->). exists i.
        split; [lia | reflexivity].
    + rewrite exchange_token_store in Hk. destruct (IH _ _ Hk) as (i & Hi & ->).
      exists i. split; [lia | reflexivity].
Qed.

Lemma reachable_no_empty_key (st : State) :
  reachable config world st -> session_store st !! "" = None.
Proof.
  intros Hst. destruct (session_store st !! "") as [record|] eqn:Hk; [|reflexivity].
  destruct (reachable_keys st Hst _ _ Hk) as (i & _ & Hi).
  pose proof (UUIDFacts.to_str_truthy (UUID.uuid4_int (os_urandom world i))) as Ht.
  rewrite <- Hi in Ht. discriminate Ht.
Qed.

End Store.

(** * The claims *)

(** ** Callback *)

(** C1, at inputs where it fails: the request carries a code and the
    token endpoint answers with status 200, but the userinfo endpoint
    answers 401 with an empty body, or the body of the token answer itself
    is no JSON; [callback] then raises [JSONDecodeError], stores no session
    and returns no redirect. *)
Lemma callback_raises_on_unreadable_answer :
  provider Sample.world_userinfo_unreadable (http_log initial_state)
    (OIDCController.token_request Sample.config "xyz")
  = Httpx.Responded
      {| Httpx.status_code := 200;
         Httpx.json := Some (PyDict {[ "access_token" := PyStr "tok1" ]}) |}
  /\ OIDCController.callback Sample.config Sample.world_userinfo_unreadable
       Sample.request_with_code initial_state
     = (Raise JSONDecodeError,
        {| session_store := ∅;
           urandom_calls := O;
           http_log :=
             [OIDCController.token_request Sample.config "xyz";
              OIDCController.userinfo_request Sample.config (PyStr "tok1")] |})
  /\ provider Sample.world_token_unreadable (http_log initial_state)
       (OIDCController.token_request Sample.config "xyz")
     = Httpx.Responded {| Httpx.status_code := 200; Httpx.json := None |}
  /\ OIDCController.callback Sample.config Sample.world_token_unreadable
       Sample.request_with_code initial_state
     = (Raise JSONDecodeError,
        {| session_store := ∅;
           urandom_calls := O;
           http_log := [OIDCController.token_request Sample.config "xyz"] |}).
Proof. repeat split; vm_compute; reflexivity. Qed.

(** C1, as amended: for a callback request that carries a (non-empty)
    code, when the token endpoint answers with status 200 and a JSON
    object, and the userinfo endpoint, asked with the access token of that
    object, answers with a JSON body, the controller sends these two
    requests and no other, writes exactly one session record, holding the
    claims of the userinfo answer and the access token of the token
    answer ([None] when the object has none), under the identifier it has
    just generated, and returns a redirect to [/] whose only cookie is
    [session_id], set to that same identifier, HttpOnly, with Secure equal
    to [COOKIE_SECURE] and SameSite equal to [COOKIE_SAMESITE]. *)
Theorem callback_success_creates_session
    (config : OIDCSettings) (world : World)
    (request : Starlette.Request) (st : State)
    (code : string) (token_resp user_resp : Httpx.Response)
    (tokens : gmap string PyVal) (user_info : PyVal) :
  Starlette.query_params request !! "code" = Some code ->
  code <> "" ->
  provider world (http_log st) (OIDCController.token_request config code)
    = Httpx.Responded token_resp ->
  Httpx.status_code token_resp = 200 ->
  Httpx.json token_resp = Some (PyDict tokens) ->
  provider world
    (http_log st ++ [OIDCController.token_request config code])
    {| Httpx.method := Httpx.GET;
       Httpx.url := USERINFO_URL config;
       Httpx.data := [];
       Httpx.headers :=
         [("Authorization",
           Httpx.Bearer (default PyNone (tokens !! "access_token")))] |}
    = Httpx.Responded user_resp ->
  Httpx.json user_resp = Some user_info ->
  exists (response : Starlette.Response) (st' : State) (cookie : Starlette.Cookie),
    OIDCController.callback config world request st = (Return response, st')
    /\ session_store st'
       = <[next_uuid world st :=
             {[ "user" := user_info;
                "access_token" := default PyNone (tokens !! "access_token") ]}]>
           (session_store st)
    /\ (forall k, k <> next_uuid world st ->
          session_store st' !! k = session_store st !! k)
    /\ http_log st'
       = (http_log st
            ++ [OIDCController.token_request config code;
                {| Httpx.method := Httpx.GET;
                   Httpx.url := USERINFO_URL config;
                   Httpx.data := [];
                   Httpx.headers :=
                     [("Authorization",
                       Httpx.Bearer
                         (default PyNone (tokens !! "access_token")))] |}])%list
    /\ Starlette.location response = Some "/"
    /\ Starlette.set_cookies response = [cookie]
    /\ Starlette.key cookie = "session_id"
    /\ Starlette.value cookie = next_uuid world st
    /\ Starlette.httponly cookie = true
    /\ Starlette.secure cookie = COOKIE_SECURE config
    /\ Starlette.samesite cookie = Some (COOKIE_SAMESITE config).
Proof.
  intros Hcode Hne Htok Hstatus Hjson Huser Hujson.
  apply str_truthy_nonempty in Hne.
  eexists _, _, _. split.
  - apply (callback_run config world request st code token_resp user_resp
             tokens user_info); assumption.
  - cbn [session_store http_log]. split; [reflexivity|]. split.
    + intros k Hk. now rewrite lookup_insert_ne.
    + split; [rewrite <- app_assoc; reflexivity|].
      repeat split; reflexivity.
Qed.

Lemma callback_success_creates_session_witness :
  exists (response : Starlette.Response) (st' : State) (cookie : Starlette.Cookie),
    OIDCController.callback Sample.config Sample.world Sample.request_with_code
      initial_state = (Return response, st')
    /\ session_store st'
       = <[next_uuid Sample.world initial_state :=
             {[ "user" := PyDict {[ "email" := PyStr "a@b.com" ]};
                "access_token" := PyStr "tok1" ]}]>
           (session_store initial_state)
    /\ Starlette.location response = Some "/"
    /\ Starlette.set_cookies response = [cookie]
    /\ Starlette.key cookie = "session_id"
    /\ Starlette.value cookie = next_uuid Sample.world initial_state
    /\ Starlette.httponly cookie = true
    /\ Starlette.secure cookie = COOKIE_SECURE Sample.config
    /\ Starlette.samesite cookie = Some (COOKIE_SAMESITE Sample.config).
Proof.
  destruct (callback_success_creates_session Sample.config Sample.world
              Sample.request_with_code initial_state "xyz"
              {| Httpx.status_code := 200;
                 Httpx.json :=
                   Some (PyDict {[ "access_token" := PyStr "tok1" ]}) |}
              {| Httpx.status_code := 200;
                 Httpx.json := Some (PyDict {[ "email" := PyStr "a@b.com" ]}) |}
              {[ "access_token" := PyStr "tok1" ]}
              (PyDict {[ "email" := PyStr "a@b.com" ]}))
    as (response & st' & cookie & Hrun & Hstore & _ & _ & Hrest).
  - vm_compute. reflexivity.
  - discriminate.
  - vm_compute. reflexivity.
  - reflexivity.
  - reflexivity.
  - vm_compute. reflexivity.
  - reflexivity.
  - assert (Htoken : default PyNone
                       (({[ "access_token" := PyStr "tok1" ]}
                          : gmap string PyVal) !! "access_token")
                     = PyStr "tok1") by (vm_compute; reflexivity).
    rewrite Htoken in Hstore.
    exists response, st', cookie. split; [exact Hrun|].
    split; [exact Hstore | exact Hrest].
Defined.

(** C2: a callback request without a [code] query parameter (or with an
    empty one) is answered with status 400 and the body
    [{"error": "Missing code"}], and a callback whose token endpoint
    answers with a status other than 200 is answered with status 400 and
    the body [{"error": "Failed to get token"}]; in both cases the session
    store is left as it was. *)
Theorem callback_failure_leaves_store
    (config : OIDCSettings) (world : World)
    (request : Starlette.Request) (st : State) :
  (Starlette.query_params request !! "code" = None
   \/ Starlette.query_params request !! "code" = Some "" ->
   OIDCController.callback config world request st
   = (Return
        {| Starlette.status_code := 400;
           Starlette.location := None;
           Starlette.content := Starlette.Json (PyDict {[ "error" := PyStr "Missing code" ]});
           Starlette.set_cookies := [] |},
      st))
  /\ (forall (code : string) (token_resp : Httpx.Response),
        Starlette.query_params request !! "code" = Some code ->
        code <> "" ->
        provider world (http_log st) (OIDCController.token_request config code)
          = Httpx.Responded token_resp ->
        Httpx.status_code token_resp <> 200 ->
        exists st',
          OIDCController.callback config world request st
          = (Return
               {| Starlette.status_code := 400;
                  Starlette.location := None;
                  Starlette.content :=
                    Starlette.Json (PyDict {[ "error" := PyStr "Failed to get token" ]});
                  Starlette.set_cookies := [] |},
             st')
          /\ session_store st' = session_store st).
Proof.
  split.
  - intros H. apply callback_missing_code.
    destruct H as [-> | ->]; reflexivity.
  - intros code token_resp Hcode Hne Htok Hstatus.
    apply str_truthy_nonempty in Hne.
    eexists. split.
    + apply (callback_token_refused config world request st code token_resp);
        assumption.
    + reflexivity.
Qed.

Lemma callback_failure_leaves_store_witness :
  OIDCController.callback Sample.config Sample.world_refusing
    Sample.request_without_code initial_state
  = (Return
       {| Starlette.status_code := 400;
          Starlette.location := None;
          Starlette.content := Starlette.Json (PyDict {[ "error" := PyStr "Missing code" ]});
          Starlette.set_cookies := [] |},
     initial_state)
  /\ exists st',
       OIDCController.callback Sample.config Sample.world_refusing
         Sample.request_with_code initial_state
       = (Return
            {| Starlette.status_code := 400;
               Starlette.location := None;
               Starlette.content :=
                 Starlette.Json (PyDict {[ "error" := PyStr "Failed to get token" ]});
               Starlette.set_cookies := [] |},
          st')
       /\ session_store st' = session_store initial_state.
Proof.
  split.
  - apply (proj1 (callback_failure_leaves_store Sample.config
                    Sample.world_refusing Sample.request_without_code
                    initial_state)).
    left. vm_compute. reflexivity.
  - apply (proj2 (callback_failure_leaves_store Sample.config
                    Sample.world_refusing Sample.request_with_code
                    initial_state)
             "xyz"
             {| Httpx.status_code := 403;
                Httpx.json :=
                  Some (PyDict {[ "error" := PyStr "access_denied" ]}) |}).
    + vm_compute. reflexivity.
    + discriminate.
    + vm_compute. reflexivity.
    + discriminate.
Defined.

(** C4, as the code runs it: the userinfo endpoint answers 401 with an
    error body after the token endpoint has answered 200.  The callback
    does not look at the status of the userinfo response: it stores a
    session whose identity is the error body and answers with the redirect
    and the session cookie, not with a 4xx. *)
Theorem callback_userinfo_refused_creates_session :
  exists (response : Starlette.Response) (st' : State),
    OIDCController.callback Sample.config Sample.world_userinfo_401
      Sample.request_with_code initial_state = (Return response, st')
    /\ Starlette.status_code response = 307
    /\ Starlette.location response = Some "/"
    /\ cookie_values (Return response) = [Sample.session_id]
    /\ session_store st' !! Sample.session_id
       = Some {[ "user" := PyDict {[ "error" := PyStr "invalid_token" ]};
                 "access_token" := PyStr "tok1" ]}.
Proof.
  eexists _, _. split.
  - apply (callback_run Sample.config Sample.world_userinfo_401
             Sample.request_with_code initial_state "xyz"
             {| Httpx.status_code := 200;
                Httpx.json := Some (PyDict {[ "access_token" := PyStr "tok1" ]}) |}
             {| Httpx.status_code := 401;
                Httpx.json := Some (PyDict {[ "error" := PyStr "invalid_token" ]}) |}
             {[ "access_token" := PyStr "tok1" ]}
             (PyDict {[ "error" := PyStr "invalid_token" ]}));
      vm_compute; reflexivity.
  - repeat split; vm_compute; reflexivity.
Qed.

(** C10, at an input where it fails: the token endpoint answers 200 with
    a JSON object that has no [access_token], and the userinfo endpoint
    answers the request made with [Bearer None] by 401 and an empty body;
    [callback] then raises [JSONDecodeError] after the two requests: it
    creates no session and returns no redirect. *)
Lemma callback_without_token_raises_on_refusal :
  provider Sample.world_no_token_refused (http_log initial_state)
    (OIDCController.token_request Sample.config "xyz")
  = Httpx.Responded {| Httpx.status_code := 200; Httpx.json := Some (PyDict ∅) |}
  /\ OIDCController.callback Sample.config Sample.world_no_token_refused
       Sample.request_with_code initial_state
     = (Raise JSONDecodeError,
        {| session_store := ∅;
           urandom_calls := O;
           http_log :=
             [OIDCController.token_request Sample.config "xyz";
              {| Httpx.method := Httpx.GET;
                 Httpx.url := USERINFO_URL Sample.config;
                 Httpx.data := [];
                 Httpx.headers := [("Authorization", Httpx.Bearer PyNone)] |}] |}).
Proof. split; vm_compute; reflexivity. Qed.

(** C10, as amended: when the token endpoint answers 200 with a JSON
    object that has no [access_token] field, the callback goes on as after
    a success: it asks the userinfo endpoint with the header
    [Bearer None]; when that endpoint answers with a JSON body, whatever
    its status, the callback stores a session record whose [access_token]
    is [None] and returns the redirect with the session cookie, and
    [exchange_token] on that session, in any later state that still holds
    the record, returns [None] and sends nothing; when the body of the
    userinfo answer is no JSON, the callback raises and stores nothing. *)
Theorem callback_without_access_token
    (config : OIDCSettings) (world : World)
    (request : Starlette.Request) (st : State)
    (code : string) (token_resp : Httpx.Response)
    (tokens : gmap string PyVal) :
  Starlette.query_params request !! "code" = Some code ->
  code <> "" ->
  provider world (http_log st) (OIDCController.token_request config code)
    = Httpx.Responded token_resp ->
  Httpx.status_code token_resp = 200 ->
  Httpx.json token_resp = Some (PyDict tokens) ->
  tokens !! "access_token" = None ->
  http_log (snd (OIDCController.callback config world request st))
  = (http_log st
       ++ [OIDCController.token_request config code;
           {| Httpx.method := Httpx.GET;
              Httpx.url := USERINFO_URL config;
              Httpx.data := [];
              Httpx.headers := [("Authorization", Httpx.Bearer PyNone)] |}])%list
  /\ (forall (user_resp : Httpx.Response) (user_info : PyVal),
        provider world
          (http_log st ++ [OIDCController.token_request config code])
          {| Httpx.method := Httpx.GET;
             Httpx.url := USERINFO_URL config;
             Httpx.data := [];
             Httpx.headers := [("Authorization", Httpx.Bearer PyNone)] |}
          = Httpx.Responded user_resp ->
        Httpx.json user_resp = Some user_info ->
        exists (response : Starlette.Response) (st' : State),
          OIDCController.callback config world request st = (Return response, st')
          /\ session_store st'
             = <[next_uuid world st :=
                   {[ "user" := user_info; "access_token" := PyNone ]}]>
                 (session_store st)
          /\ Starlette.location response = Some "/"
          /\ cookie_values (Return response) = [next_uuid world st]
          /\ forall (later : State) (target_client : string),
               session_store later !! next_uuid world st
                 = Some {[ "user" := user_info; "access_token" := PyNone ]} ->
               OIDCController.exchange_token config world (next_uuid world st)
                 target_client later
               = (Return PyNone, later))
  /\ (forall (user_resp : Httpx.Response),
        provider world
          (http_log st ++ [OIDCController.token_request config code])
          {| Httpx.method := Httpx.GET;
             Httpx.url := USERINFO_URL config;
             Httpx.data := [];
             Httpx.headers := [("Authorization", Httpx.Bearer PyNone)] |}
          = Httpx.Responded user_resp ->
        Httpx.json user_resp = None ->
        exists st',
          OIDCController.callback config world request st
            = (Raise JSONDecodeError, st')
          /\ session_store st' = session_store st).
Proof.
  intros Hcode Hne Htok Hstatus Hjson Hnone.
  apply str_truthy_nonempty in Hne.
  assert (Hget : dict_get tokens "access_token" = PyNone)
    by (unfold dict_get; now rewrite Hnone).
  assert (Hrun : forall outcome,
            provider world
              (http_log st ++ [OIDCController.token_request config code])
              (OIDCController.userinfo_request config PyNone) = outcome ->
            OIDCController.callback config world request st
            = match outcome with
              | Httpx.Responded user_resp =>
                  match Httpx.json user_resp with
                  | Some user_info =>
                      (Return
                         (Starlette.set_cookie (Starlette.RedirectResponse "/")
                            (OIDCController.session_cookie config
                               (next_uuid world st))),
                       {| session_store :=
                            <[next_uuid world st :=
                                OIDCController.session_record user_info PyNone]>
                              (session_store st);
                          urandom_calls := S (urandom_calls st);
                          http_log :=
                            (http_log st
                               ++ [OIDCController.token_request config code])
                              ++ [OIDCController.userinfo_request config PyNone] |})
                  | None =>
                      (Raise JSONDecodeError,
                       {| session_store := session_store st;
                          urandom_calls := urandom_calls st;
                          http_log :=
                            (http_log st
                               ++ [OIDCController.token_request config code])
                              ++ [OIDCController.userinfo_request config PyNone] |})
                  end
              | Httpx.Failed =>
                  (Raise RequestError,
                   {| session_store := session_store st;
                      urandom_calls := urandom_calls st;
                      http_log :=
                        (http_log st
                           ++ [OIDCController.token_request config code])
                          ++ [OIDCController.userinfo_request config PyNone] |})
              end).
  { intros outcome Houtcome.
    unfold OIDCController.callback. rewrite Hcode.
    unfold opt_truthy. rewrite Hne.
    unfold bind, send, json, py_get, ret, raise, uuid4_str, store_setitem,
      next_uuid.
    simpl. rewrite Htok, Hstatus, Hjson. simpl. rewrite Hget, Houtcome.
    destruct outcome as [user_resp|]; [|reflexivity].
    destruct (Httpx.json user_resp); reflexivity. }
  split.
  { rewrite (Hrun _ eq_refl).
    destruct (provider world
                (http_log st ++ [OIDCController.token_request config code])
                (OIDCController.userinfo_request config PyNone))
      as [user_resp|];
      [destruct (Httpx.json user_resp)|];
      cbn [snd http_log]; rewrite <- app_assoc; reflexivity. }
  split.
  { intros user_resp user_info Huser Hujson.
    rewrite (Hrun _ Huser), Hujson.
    eexists _, _. split; [reflexivity|]. cbn [session_store].
    split; [reflexivity|]. split; [reflexivity|]. split; [reflexivity|].
    intros later target_client Hlater.
    apply (exchange_token_no_subject config world _ _ _ _ Hlater).
    reflexivity. }
  intros user_resp Huser Hujson.
  rewrite (Hrun _ Huser), Hujson.
  eexists. split; reflexivity.
Qed.

Lemma callback_without_access_token_witness :
  exists (response : Starlette.Response) (st' : State),
    OIDCController.callback Sample.config Sample.world_no_token
      Sample.request_with_code initial_state = (Return response, st')
    /\ session_store st'
       = <[next_uuid Sample.world_no_token initial_state :=
             {[ "user" := PyDict {[ "email" := PyStr "a@b.com" ]};
                "access_token" := PyNone ]}]>
           (session_store initial_state)
    /\ Starlette.location response = Some "/"
    /\ cookie_values (Return response)
       = [next_uuid Sample.world_no_token initial_state]
    /\ forall (later : State) (target_client : string),
         session_store later !! next_uuid Sample.world_no_token initial_state
           = Some {[ "user" := PyDict {[ "email" := PyStr "a@b.com" ]};
                     "access_token" := PyNone ]} ->
         OIDCController.exchange_token Sample.config Sample.world_no_token
           (next_uuid Sample.world_no_token initial_state) target_client later
         = (Return PyNone, later).
Proof.
  apply (proj1 (proj2
           (callback_without_access_token Sample.config Sample.world_no_token
              Sample.request_with_code initial_state "xyz"
              {| Httpx.status_code := 200; Httpx.json := Some (PyDict ∅) |}
              ∅
              ltac:(vm_compute; reflexivity)
              ltac:(discriminate)
              ltac:(vm_compute; reflexivity)
              ltac:(reflexivity)
              ltac:(reflexivity)
              ltac:(reflexivity)))
           {| Httpx.status_code := 200;
              Httpx.json := Some (PyDict {[ "email" := PyStr "a@b.com" ]}) |}
           (PyDict {[ "email" := PyStr "a@b.com" ]})).
  - vm_compute. reflexivity.
  - reflexivity.
Defined.

(** ** Token exchange *)

(** C3, at an input where it fails: the session is known, it holds the
    access token [tok1], the provider answers the exchange with status 200,
    and yet [exchange_token] returns [None], because the 200 answer holds
    no [access_token]. *)
Lemma exchange_token_none_on_provider_success :
  session_store Sample.logged_in !! Sample.session_id = Some Sample.record
  /\ py_truthy (dict_get Sample.record "access_token") = true
  /\ provider Sample.world_exchange_empty (http_log Sample.logged_in)
       Sample.exchange_request
     = Httpx.Responded {| Httpx.status_code := 200; Httpx.json := Some (PyDict ∅) |}
  /\ OIDCController.exchange_token Sample.config Sample.world_exchange_empty
       Sample.session_id "svc-a" Sample.logged_in
     = (Return PyNone,
        {| session_store := session_store Sample.logged_in;
           urandom_calls := urandom_calls Sample.logged_in;
           http_log := http_log Sample.logged_in ++ [Sample.exchange_request] |}).
Proof.
  repeat split; vm_compute; reflexivity.
Qed.

(** C3, as amended: [exchange_token] returns [None], without raising,
    whenever the session identifier is unknown, or the stored access token
    is missing or falsy, or the provider answers the exchange with a status
    other than 200; whatever it returns that is not [None] comes from a
    provider answer with status 200; and on a 200 answer with a JSON object
    it returns that object's [access_token], which is [None] when the field
    is absent. *)
Theorem exchange_token_outcomes
    (config : OIDCSettings) (world : World)
    (session_id target_client : string) (st : State) :
  (session_store st !! session_id = None ->
   OIDCController.exchange_token config world session_id target_client st
   = (Return PyNone, st))
  /\ (forall record,
        session_store st !! session_id = Some record ->
        py_truthy (dict_get record "access_token") = false ->
        OIDCController.exchange_token config world session_id target_client st
        = (Return PyNone, st))
  /\ (forall record exchange_resp,
        session_store st !! session_id = Some record ->
        py_truthy (dict_get record "access_token") = true ->
        provider world (http_log st)
          (OIDCController.exchange_request config
             (dict_get record "access_token") target_client)
          = Httpx.Responded exchange_resp ->
        Httpx.status_code exchange_resp <> 200 ->
        fst (OIDCController.exchange_token config world session_id
               target_client st)
        = Return PyNone)
  /\ (forall v,
        fst (OIDCController.exchange_token config world session_id
               target_client st)
          = Return v ->
        v <> PyNone ->
        exists record exchange_resp,
          session_store st !! session_id = Some record
          /\ provider world (http_log st)
               (OIDCController.exchange_request config
                  (dict_get record "access_token") target_client)
             = Httpx.Responded exchange_resp
          /\ Httpx.status_code exchange_resp = 200)
  /\ (forall record exchange_resp new_tokens,
        session_store st !! session_id = Some record ->
        py_truthy (dict_get record "access_token") = true ->
        provider world (http_log st)
          (OIDCController.exchange_request config
             (dict_get record "access_token") target_client)
          = Httpx.Responded exchange_resp ->
        Httpx.status_code exchange_resp = 200 ->
        Httpx.json exchange_resp = Some (PyDict new_tokens) ->
        fst (OIDCController.exchange_token config world session_id
               target_client st)
        = Return (dict_get new_tokens "access_token")).
Proof.
  split; [apply exchange_token_unknown|].
  split; [intros record; apply exchange_token_no_subject|].
  split.
  { intros record exchange_resp Hrec Htruthy Hresp Hstatus.
    rewrite (exchange_token_refused config world _ _ _ record exchange_resp)
      by assumption.
    reflexivity. }
  split.
  { intros v Hv Hne.
    destruct (exchange_token_value config world _ _ _ v Hv Hne)
      as (record & exchange_resp & Hrec & _ & Hresp & Hstatus).
    exists record, exchange_resp. auto. }
  intros record exchange_resp new_tokens Hrec Htruthy Hresp Hstatus Hjson.
  rewrite (exchange_token_granted config world _ _ _ record new_tokens
             exchange_resp) by assumption.
  reflexivity.
Qed.

Lemma exchange_token_outcomes_witness :
  OIDCController.exchange_token Sample.config Sample.world "unknown-id" "svc-a"
    Sample.logged_in
  = (Return PyNone, Sample.logged_in)
  /\ fst (OIDCController.exchange_token Sample.config Sample.world_refusing
            Sample.session_id "svc-a" Sample.logged_in)
     = Return PyNone
  /\ fst (OIDCController.exchange_token Sample.config Sample.world
            Sample.session_id "svc-a" Sample.logged_in)
     = Return (dict_get {[ "access_token" := PyStr "tok2" ]} "access_token").
Proof.
  split; [|split].
  - apply (proj1 (exchange_token_outcomes Sample.config Sample.world
                    "unknown-id" "svc-a" Sample.logged_in)).
    vm_compute. reflexivity.
  - apply (proj1 (proj2 (proj2
             (exchange_token_outcomes Sample.config Sample.world_refusing
                Sample.session_id "svc-a" Sample.logged_in)))
             Sample.record
             {| Httpx.status_code := 403;
                Httpx.json :=
                  Some (PyDict {[ "error" := PyStr "access_denied" ]}) |}).
    + vm_compute. reflexivity.
    + vm_compute. reflexivity.
    + vm_compute. reflexivity.
    + discriminate.
  - apply (proj2 (proj2 (proj2 (proj2
             (exchange_token_outcomes Sample.config Sample.world
                Sample.session_id "svc-a" Sample.logged_in))))
             Sample.record
             {| Httpx.status_code := 200;
                Httpx.json :=
                  Some (PyDict {[ "access_token" := PyStr "tok2" ]}) |}
             {[ "access_token" := PyStr "tok2" ]}).
    + vm_compute. reflexivity.
    + vm_compute. reflexivity.
    + vm_compute. reflexivity.
    + reflexivity.
    + reflexivity.
Defined.

(** ** Logout *)

(** C5: in every state reached from the empty store, a logout request
    succeeds whatever it carries; if its session cookie names a record of
    the store, that record is deleted; if there is no cookie, or the cookie
    names no record, the state is left as it was; a second logout changes
    nothing more; and the response is always the redirect to [/login] that
    clears the [session_id] cookie. *)
Theorem logout_deletes_session_and_clears_cookie
    (config : OIDCSettings) (world : World)
    (request : Starlette.Request) (st : State) :
  reachable config world st ->
  exists (response : Starlette.Response) (st' : State),
    OIDCController.logout request st = (Return response, st')
    /\ (forall session_id record,
          Starlette.cookies request !! "session_id" = Some session_id ->
          session_store st !! session_id = Some record ->
          session_store st' = delete session_id (session_store st)
          /\ session_store st' !! session_id = None)
    /\ (Starlette.cookies request !! "session_id" = None -> st' = st)
    /\ (forall session_id,
          Starlette.cookies request !! "session_id" = Some session_id ->
          session_store st !! session_id = None -> st' = st)
    /\ OIDCController.logout request st' = (Return response, st')
    /\ Starlette.location response = Some "/login"
    /\ Starlette.set_cookies response
       = [ {| Starlette.key := "session_id";
              Starlette.value := "";
              Starlette.max_age := Some 0;
              Starlette.expires := Some 0;
              Starlette.path := Some "/";
              Starlette.domain := None;
              Starlette.secure := false;
              Starlette.httponly := false;
              Starlette.samesite := Some lax |} ].
Proof.
  intros Hst.
  pose proof (reachable_no_empty_key config world st Hst) as Hempty.
  exists logout_response. eexists. split; [apply logout_run|].
  cbn [session_store].
  split.
  { intros sid record Hcookie Hrec. rewrite Hcookie.
    destruct (str_truthy sid) eqn:Hsid.
    - split; [reflexivity | apply lookup_delete_eq].
    - apply str_truthy_false in Hsid. subst sid. congruence. }
  split.
  { intros Hcookie. rewrite Hcookie. now destruct st. }
  split.
  { intros sid Hcookie Hrec. rewrite Hcookie.
    destruct (str_truthy sid); [rewrite delete_id by exact Hrec|];
      now destruct st. }
  split.
  { rewrite logout_run. cbn [session_store urandom_calls http_log].
    f_equal. f_equal.
    destruct (Starlette.cookies request !! "session_id") as [sid|];
      [|reflexivity].
    destruct (str_truthy sid); [|reflexivity].
    apply delete_delete_eq. }
  split; reflexivity.
Qed.

Lemma logout_deletes_session_and_clears_cookie_witness :
  exists (response : Starlette.Response) (st' : State),
    OIDCController.logout (Sample.request_with_cookie Sample.session_id)
      Sample.logged_in = (Return response, st')
    /\ session_store st' !! Sample.session_id = None
    /\ Starlette.location response = Some "/login".
Proof.
  destruct (logout_deletes_session_and_clears_cookie Sample.config Sample.world
              (Sample.request_with_cookie Sample.session_id) Sample.logged_in)
    as (response & st' & Hrun & Hdel & _ & _ & _ & Hloc & _).
  - apply reachable_step. apply reachable_initial.
  - exists response, st'. split; [exact Hrun|]. split; [|exact Hloc].
    apply (Hdel Sample.session_id Sample.record); vm_compute; reflexivity.
Defined.

(** ** Login *)

(** C6, at an input where it fails: the redirect of [login] has status
    307, the default of the framework's [RedirectResponse], not 302. *)
Lemma login_redirect_status_is_307 :
  exists (response : Starlette.Response) (st' : State),
    OIDCController.login Sample.config Sample.world
      Sample.request_without_code initial_state = (Return response, st')
    /\ Starlette.status_code response = 307
    /\ Z.eqb (Starlette.status_code response) 302 = false.
Proof.
  eexists _, _. split; [apply login_run|]. split; reflexivity.
Qed.

(** C6, as amended: every login request is answered with a 307 redirect
    whose [Location] is the authorize URL followed by [?client_id=], the
    client id, [&response_type=code&scope=], the scope, [&redirect_uri=],
    the redirect URI, [&state=] and a freshly generated UUID, each
    configured value percent-encoded by the redirect (the characters of
    [Starlette.REDIRECT_SAFE] and the unreserved ones stay as they are), so
    that the default scope is rendered [openid%20email%20profile]; the
    session store is not touched. *)
Theorem login_redirects_to_provider
    (config : OIDCSettings) (world : World)
    (request : Starlette.Request) (st : State) :
  exists (response : Starlette.Response) (st' : State),
    OIDCController.login config world request st = (Return response, st')
    /\ Starlette.status_code response = 307
    /\ Starlette.location response
       = Some (Urllib.quote Starlette.REDIRECT_SAFE (AUTHORIZE_URL config)
               +:+ "?client_id="
               +:+ Urllib.quote Starlette.REDIRECT_SAFE (CLIENT_ID config)
               +:+ "&response_type=code&scope="
               +:+ Urllib.quote Starlette.REDIRECT_SAFE (SCOPE config)
               +:+ "&redirect_uri="
               +:+ Urllib.quote Starlette.REDIRECT_SAFE (REDIRECT_URI config)
               +:+ "&state=" +:+ next_uuid world st)
    /\ Urllib.quote Starlette.REDIRECT_SAFE "openid email profile"
       = "openid%20email%20profile"
    /\ urandom_calls st' = S (urandom_calls st)
    /\ session_store st' = session_store st.
Proof.
  eexists _, _. split; [apply login_run|].
  split; [reflexivity|]. split.
  - unfold Starlette.RedirectResponse. cbn [Starlette.location]. f_equal.
    rewrite !quote_append.
    rewrite (quote_kept _ (next_uuid world st))
      by apply UUIDFacts.all_kept_to_str.
    reflexivity.
  - split; [vm_compute; reflexivity|]. split; reflexivity.
Qed.

(** Scenario 1 of the specification, run. *)
Example login_scenario :
  fst (OIDCController.login Sample.config Sample.world
         Sample.request_without_code initial_state)
  = Return
      {| Starlette.status_code := 307;
         Starlette.location :=
           Some ("https://idp.example/authorize?client_id=abc123"
                 +:+ "&response_type=code&scope=openid%20email%20profile"
                 +:+ "&redirect_uri=http://localhost:8000/oidc/callback"
                 +:+ "&state=00000000-0000-4000-8000-000000000000");
         Starlette.content := Starlette.Empty;
         Starlette.set_cookies := [] |}.
Proof. vm_compute. reflexivity. Qed.

(** ** The session store *)

(** C7: [login] and [exchange_token] leave the session store as it is;
    [logout] leaves it as it is or deletes the one record named by the
    request's session cookie, every other record staying as it was; and
    [callback], the only method that writes a record, leaves the store as
    it is or writes one record, deleting none. *)
Theorem store_written_by_callback_deleted_by_logout
    (config : OIDCSettings) (world : World) (st : State) :
  (forall request,
     session_store (snd (OIDCController.login config world request st))
     = session_store st)
  /\ (forall session_id target_client,
        session_store
          (snd (OIDCController.exchange_token config world session_id
                  target_client st))
        = session_store st)
  /\ (forall request,
        session_store (snd (OIDCController.logout request st)) = session_store st
        \/ exists session_id,
             Starlette.cookies request !! "session_id" = Some session_id
             /\ session_store (snd (OIDCController.logout request st))
                = delete session_id (session_store st))
  /\ (forall request k,
        Starlette.cookies request !! "session_id" <> Some k ->
        session_store (snd (OIDCController.logout request st)) !! k
        = session_store st !! k)
  /\ (forall request,
        session_store (snd (OIDCController.callback config world request st))
          = session_store st
        \/ exists session_id record,
             session_store (snd (OIDCController.callback config world request st))
             = <[session_id := record]> (session_store st))
  /\ (forall request k,
        is_Some (session_store st !! k) ->
        is_Some (session_store
                   (snd (OIDCController.callback config world request st)) !! k)).
Proof.
  split; [intros request; apply login_store|].
  split; [intros sid target; apply exchange_token_store|].
  split.
  { intros request.
    destruct (logout_store request st) as [H|(sid & Hc & _ & H)];
      [left; exact H | right; exists sid; auto]. }
  split.
  { intros request k Hk.
    destruct (logout_store request st) as [H|(sid & Hc & _ & H)]; rewrite H;
      [reflexivity|].
    apply lookup_delete_ne. congruence. }
  split.
  { intros request.
    destruct (callback_cases config world request st)
      as [(H & _ & _)|(ui & tok & _ & H & _)];
      [left; exact H | right; eauto]. }
  intros request k Hk.
  destruct (callback_cases config world request st)
    as [(H & _ & _)|(ui & tok & _ & H & _)]; rewrite H; [exact Hk|].
  rewrite lookup_insert. destruct (decide (next_uuid world st = k)); eauto.
Qed.

(** ** Settings *)

Section SettingsFacts.

Variable environ : gmap string string.

(** The construction either succeeds, each field being what its
    validator returned, or fails with every error found. *)
Lemma init_cases :
  (exists settings,
     Settings.init environ = inr settings
     /\ Settings.required_str environ "CLIENT_ID" = inr (CLIENT_ID settings)
     /\ Settings.required_str environ "CLIENT_SECRET" = inr (CLIENT_SECRET settings)
     /\ Settings.required_str environ "ISSUER_URL" = inr (ISSUER_URL settings)
     /\ Settings.required_str environ "AUTHORIZE_URL" = inr (AUTHORIZE_URL settings)
     /\ Settings.required_str environ "TOKEN_URL" = inr (TOKEN_URL settings)
     /\ Settings.required_str environ "USERINFO_URL" = inr (USERINFO_URL settings)
     /\ Settings.optional_str environ "REDIRECT_URI"
          "http://localhost:8000/oidc/callback" = inr (REDIRECT_URI settings)
     /\ Settings.optional_str environ "SCOPE" "openid email profile"
        = inr (SCOPE settings)
     /\ Settings.optional_bool environ "COOKIE_SECURE" false
        = inr (COOKIE_SECURE settings)
     /\ Settings.optional_samesite environ "COOKIE_SAMESITE" lax
        = inr (COOKIE_SAMESITE settings))
  \/ (Settings.init environ = inl (all_errors environ)
      /\ all_errors environ <> []).
Proof.
  unfold Settings.init, all_errors. cbv zeta.
  unfold Settings.required_str, Settings.optional_str, Settings.optional_bool,
    Settings.optional_samesite.
  destruct (Settings.lookup_env environ "CLIENT_ID");
    [|right; split; [reflexivity | discriminate]].
  destruct (Settings.lookup_env environ "CLIENT_SECRET");
    [|right; split; [reflexivity | discriminate]].
  destruct (Settings.lookup_env environ "ISSUER_URL");
    [|right; split; [reflexivity | discriminate]].
  destruct (Settings.lookup_env environ "AUTHORIZE_URL");
    [|right; split; [reflexivity | discriminate]].
  destruct (Settings.lookup_env environ "TOKEN_URL");
    [|right; split; [reflexivity | discriminate]].
  destruct (Settings.lookup_env environ "USERINFO_URL");
    [|right; split; [reflexivity | discriminate]].
  destruct (Settings.lookup_env environ "REDIRECT_URI");
    destruct (Settings.lookup_env environ "SCOPE");
    (destruct (Settings.lookup_env environ "COOKIE_SECURE") as [v|];
     [destruct (Settings.parse_bool v);
      [|right; split; [reflexivity | discriminate]]|]);
    (destruct (Settings.lookup_env environ "COOKIE_SAMESITE") as [w|];
     [destruct (Settings.parse_samesite w);
      [|right; split; [reflexivity | discriminate]]|]);
    left; eexists; repeat split; reflexivity.
Qed.

Lemma required_missing (name : string) :
  Settings.lookup_env environ name = None ->
  Settings.required_str environ name = inl [(name, Settings.missing)].
Proof. intros H. unfold Settings.required_str. now rewrite H. Qed.

Lemma required_present (name value : string) :
  Settings.lookup_env environ name = Some value ->
  Settings.required_str environ name = inr value.
Proof. intros H. unfold Settings.required_str. now rewrite H. Qed.

End SettingsFacts.

(** The names of the variables are matched without regard to case. *)
Example lookup_env_ignores_case :
  Settings.lookup_env {[ "oidc_Scope" := "openid" ]} "SCOPE" = Some "openid"
  /\ Settings.lookup_env {[ "OIDC_SCOPE" := "openid" ]} "SCOPE" = Some "openid"
  /\ Settings.lookup_env {[ "SCOPE" := "openid" ]} "SCOPE" = None.
Proof. repeat split; vm_compute; reflexivity. Qed.

(** C8, at an input where it fails: with [OIDC_CLIENT_ID] set to the empty
    text (and the five other required variables set) the construction
    succeeds, and the settings hold the empty client id. *)
Lemma settings_accept_empty_client_id :
  Settings.lookup_env Sample.environ_empty_client_id "CLIENT_ID" = Some ""
  /\ Settings.init Sample.environ_empty_client_id
     = inr {| CLIENT_ID := "";
              CLIENT_SECRET := "s3cret";
              ISSUER_URL := "https://idp.example";
              AUTHORIZE_URL := "https://idp.example/authorize";
              TOKEN_URL := "https://idp.example/token";
              USERINFO_URL := "https://idp.example/userinfo";
              REDIRECT_URI := "http://localhost:8000/oidc/callback";
              SCOPE := "openid email profile";
              COOKIE_SECURE := false;
              COOKIE_SAMESITE := lax |}.
Proof. split; vm_compute; reflexivity. Qed.

(** C8, as amended: constructing the settings fails when a required field
    ([CLIENT_ID], [CLIENT_SECRET], [ISSUER_URL], [AUTHORIZE_URL],
    [TOKEN_URL], [USERINFO_URL]) is missing, an empty text being a value
    like any other, and when a supplied [COOKIE_SECURE] is no boolean or a
    supplied [COOKIE_SAMESITE] is none of [lax], [strict], [none]; it
    succeeds otherwise, each required field holding the supplied text, with
    the defaults [REDIRECT_URI = http://localhost:8000/oidc/callback],
    [SCOPE = "openid email profile"], [COOKIE_SECURE = false] and
    [COOKIE_SAMESITE = lax] for the fields that are not supplied. *)
Theorem settings_required_and_defaults (environ : gmap string string) :
  (forall name,
     In name REQUIRED -> Settings.lookup_env environ name = None ->
     exists errors,
       Settings.init environ = inl errors /\ In (name, Settings.missing) errors)
  /\ (forall v,
        Settings.lookup_env environ "COOKIE_SAMESITE" = Some v ->
        v <> "lax" -> v <> "strict" -> v <> "none" ->
        exists errors,
          Settings.init environ = inl errors
          /\ In ("COOKIE_SAMESITE", Settings.literal_error) errors)
  /\ (forall v,
        Settings.lookup_env environ "COOKIE_SECURE" = Some v ->
        Settings.parse_bool v = None ->
        exists errors,
          Settings.init environ = inl errors
          /\ In ("COOKIE_SECURE", Settings.bool_parsing) errors)
  /\ ((forall name, In name REQUIRED ->
         is_Some (Settings.lookup_env environ name)) ->
      (forall v, Settings.lookup_env environ "COOKIE_SECURE" = Some v ->
         is_Some (Settings.parse_bool v)) ->
      (forall v, Settings.lookup_env environ "COOKIE_SAMESITE" = Some v ->
         v = "lax" \/ v = "strict" \/ v = "none") ->
      exists settings,
        Settings.init environ = inr settings
        /\ Settings.lookup_env environ "CLIENT_ID" = Some (CLIENT_ID settings)
        /\ Settings.lookup_env environ "CLIENT_SECRET" = Some (CLIENT_SECRET settings)
        /\ Settings.lookup_env environ "ISSUER_URL" = Some (ISSUER_URL settings)
        /\ Settings.lookup_env environ "AUTHORIZE_URL" = Some (AUTHORIZE_URL settings)
        /\ Settings.lookup_env environ "TOKEN_URL" = Some (TOKEN_URL settings)
        /\ Settings.lookup_env environ "USERINFO_URL" = Some (USERINFO_URL settings)
        /\ REDIRECT_URI settings
           = default "http://localhost:8000/oidc/callback"
               (Settings.lookup_env environ "REDIRECT_URI")
        /\ SCOPE settings
           = default "openid email profile" (Settings.lookup_env environ "SCOPE")
        /\ (Settings.lookup_env environ "COOKIE_SECURE" = None ->
            COOKIE_SECURE settings = false)
        /\ (forall v, Settings.lookup_env environ "COOKIE_SECURE" = Some v ->
            Settings.parse_bool v = Some (COOKIE_SECURE settings))
        /\ (Settings.lookup_env environ "COOKIE_SAMESITE" = None ->
            COOKIE_SAMESITE settings = lax)
        /\ (forall v, Settings.lookup_env environ "COOKIE_SAMESITE" = Some v ->
            Settings.parse_samesite v = Some (COOKIE_SAMESITE settings))).
Proof.
  split.
  { intros name Hin Hnone.
    pose proof (required_missing environ name Hnone) as Hreq.
    destruct (init_cases environ)
      as [(settings & _ & H1 & H2 & H3 & H4 & H5 & H6 & _)|[Hinit _]].
    - exfalso. simpl in Hin.
      destruct Hin as [<- | [<- | [<- | [<- | [<- | [<- | [] ] ] ] ] ] ]; congruence.
    - exists (all_errors environ). split; [exact Hinit|].
      unfold all_errors. simpl in Hin.
      destruct Hin as [<- | [<- | [<- | [<- | [<- | [<- | [] ] ] ] ] ] ];
        rewrite Hreq; rewrite ?in_app_iff; simpl; auto 20. }
  split.
  { intros v Hv Hlax Hstrict Hnone.
    assert (Hparse : Settings.parse_samesite v = None).
    { unfold Settings.parse_samesite.
      apply String.eqb_neq in Hlax, Hstrict, Hnone.
      now rewrite Hlax, Hstrict, Hnone. }
    assert (Hopt : Settings.optional_samesite environ "COOKIE_SAMESITE" lax
                   = inl [("COOKIE_SAMESITE", Settings.literal_error)]).
    { unfold Settings.optional_samesite. now rewrite Hv, Hparse. }
    destruct (init_cases environ)
      as [(settings & _ & _ & _ & _ & _ & _ & _ & _ & _ & _ & H)|[Hinit _]].
    - congruence.
    - exists (all_errors environ). split; [exact Hinit|].
      unfold all_errors. rewrite Hopt. rewrite ?in_app_iff. simpl. auto 20. }
  split.
  { intros v Hv Hparse.
    assert (Hopt : Settings.optional_bool environ "COOKIE_SECURE" false
                   = inl [("COOKIE_SECURE", Settings.bool_parsing)]).
    { unfold Settings.optional_bool. now rewrite Hv, Hparse. }
    destruct (init_cases environ)
      as [(settings & _ & _ & _ & _ & _ & _ & _ & _ & _ & H & _)|[Hinit _]].
    - congruence.
    - exists (all_errors environ). split; [exact Hinit|].
      unfold all_errors. rewrite Hopt. rewrite ?in_app_iff. simpl. auto 20. }
  intros Hreq Hbool Hsame.
  destruct (init_cases environ)
    as [(settings & Hinit & H1 & H2 & H3 & H4 & H5 & H6 & H7 & H8 & H9 & H10)
       |[_ Herr]].
  - exists settings. split; [exact Hinit|].
    unfold Settings.required_str in H1, H2, H3, H4, H5, H6.
    unfold Settings.optional_str in H7, H8.
    unfold Settings.optional_bool in H9.
    unfold Settings.optional_samesite in H10.
    repeat split.
    + destruct (Settings.lookup_env environ "CLIENT_ID"); congruence.
    + destruct (Settings.lookup_env environ "CLIENT_SECRET"); congruence.
    + destruct (Settings.lookup_env environ "ISSUER_URL"); congruence.
    + destruct (Settings.lookup_env environ "AUTHORIZE_URL"); congruence.
    + destruct (Settings.lookup_env environ "TOKEN_URL"); congruence.
    + destruct (Settings.lookup_env environ "USERINFO_URL"); congruence.
    + destruct (Settings.lookup_env environ "REDIRECT_URI"); simpl; congruence.
    + destruct (Settings.lookup_env environ "SCOPE"); simpl; congruence.
    + intros Hnone. rewrite Hnone in H9. congruence.
    + intros v Hv. rewrite Hv in H9.
      destruct (Settings.parse_bool v); congruence.
    + intros Hnone. rewrite Hnone in H10. congruence.
    + intros v Hv. rewrite Hv in H10.
      destruct (Settings.parse_samesite v); congruence.
  - exfalso. apply Herr. unfold all_errors.
    assert (Hr : forall name, In name REQUIRED ->
                   Settings.errors (Settings.required_str environ name) = []).
    { intros name Hin. destruct (Hreq name Hin) as [v Hv].
      now rewrite (required_present environ name v Hv). }
    rewrite !Hr by (simpl; auto 10).
    unfold Settings.optional_str, Settings.optional_bool,
      Settings.optional_samesite.
    destruct (Settings.lookup_env environ "REDIRECT_URI");
      destruct (Settings.lookup_env environ "SCOPE"); simpl.
    all: destruct (Settings.lookup_env environ "COOKIE_SECURE") as [v|] eqn:Hv;
      [destruct (Hbool v eq_refl) as [b ->]|]; simpl.
    all: destruct (Settings.lookup_env environ "COOKIE_SAMESITE") as [w|] eqn:Hw;
      [destruct (Hsame w eq_refl) as [-> | [-> | ->] ]|]; reflexivity.
Qed.

Lemma settings_required_and_defaults_witness :
  (exists errors,
     Settings.init (delete "OIDC_TOKEN_URL" Sample.environ) = inl errors
     /\ In ("TOKEN_URL", Settings.missing) errors)
  /\ exists settings,
       Settings.init Sample.environ = inr settings
       /\ Settings.lookup_env Sample.environ "CLIENT_ID" = Some (CLIENT_ID settings)
       /\ REDIRECT_URI settings
          = default "http://localhost:8000/oidc/callback"
              (Settings.lookup_env Sample.environ "REDIRECT_URI")
       /\ SCOPE settings
          = default "openid email profile"
              (Settings.lookup_env Sample.environ "SCOPE").
Proof.
  split.
  - apply (proj1 (settings_required_and_defaults
                    (delete "OIDC_TOKEN_URL" Sample.environ)) "TOKEN_URL").
    + simpl. auto 10.
    + vm_compute. reflexivity.
  - destruct (proj2 (proj2 (proj2
               (settings_required_and_defaults Sample.environ))))
      as (settings & Hinit & Hid & _ & _ & _ & _ & _ & Huri & Hscope & _).
    + intros name Hin. simpl in Hin.
      destruct Hin as [<- | [<- | [<- | [<- | [<- | [<- | [] ] ] ] ] ] ];
        vm_compute; eauto.
    + intros v Hv. vm_compute in Hv. discriminate.
    + intros v Hv. vm_compute in Hv. discriminate.
    + exists settings. auto.
Defined.

(** ** Fresh session identifiers *)

Section Freshness.

Variable config : OIDCSettings.
Variable world : World.

(** The identifiers issued by a run are draws made during that run, and
    they are pairwise distinct when those draws are. *)
Lemma issued_ids_draws (calls : list Call) (st : State) :
  (forall i j : nat,
     (urandom_calls st <= i)%nat -> (i < j)%nat ->
     (j < urandom_calls (run config world calls st))%nat ->
     UUID.uuid4_int (os_urandom world i) <> UUID.uuid4_int (os_urandom world j)) ->
  NoDup (issued_ids config world calls st)
  /\ forall id, id ∈ issued_ids config world calls st ->
       exists i, (urandom_calls st <= i)%nat
         /\ (i < urandom_calls (run config world calls st))%nat
         /\ id = UUID.to_str (UUID.uuid4_int (os_urandom world i)).
Proof.
  revert st. induction calls as [|c calls IH]; intros st Hdistinct.
  - split; [constructor | intros id Hid; inversion Hid].
  - pose proof (step_urandom_calls config world c st) as Hstep.
    pose proof (run_urandom_calls config world calls (step config world c st))
      as Hrun.
    change (run config world (c :: calls) st)
      with (run config world calls (step config world c st)) in Hdistinct |- *.
    destruct (IH (step config world c st)) as [Hnodup Hin].
    { intros i j Hi Hij Hj. apply Hdistinct; lia. }
    assert (Hrest : forall id,
              id ∈ issued_ids config world calls (step config world c st) ->
              exists i, (urandom_calls st <= i)%nat
                /\ (i < urandom_calls
                          (run config world calls (step config world c st)))%nat
                /\ id = UUID.to_str (UUID.uuid4_int (os_urandom world i))).
    { intros id Hid. destruct (Hin id Hid) as (i & Hi & Hi' & ->).
      exists i. split; [lia|]. split; [exact Hi' | reflexivity]. }
    cbn [issued_ids].
    destruct c as [request|request|request|session_id target_client];
      try (split; [exact Hnodup | exact Hrest]).
    destruct (callback_cases config world request st)
      as [(_ & _ & Hnone)|(ui & tok & Hret & _ & Hn)].
    + rewrite Hnone. split; [exact Hnodup | exact Hrest].
    + rewrite Hret. cbn [cookie_values Starlette.set_cookie Starlette.set_cookies
                           Starlette.RedirectResponse app map
                           OIDCController.session_cookie Starlette.value].
      unfold step in Hin, Hrun, Hstep. rewrite Hn in Hin, Hstep.
      split.
      * apply NoDup_cons. split; [|exact Hnodup].
        intros Hmem. destruct (Hin _ Hmem) as (i & Hi & Hi' & Heq).
        unfold next_uuid in Heq. apply UUIDFacts.to_str_uuid4_inj in Heq.
        apply (Hdistinct (urandom_calls st) i); [lia | lia | exact Hi' | exact Heq].
      * intros id Hid. apply elem_of_cons in Hid as [-> | Hid];
          [|apply Hrest; exact Hid].
        exists (urandom_calls st). split; [lia|]. split; [|reflexivity].
        unfold step. lia.
Qed.

End Freshness.

(** C9, at an input where it fails: the random source returns the same
    sixteen bytes twice, two callbacks in a row succeed, both hand out the
    same identifier, and the second overwrites the record of the first,
    so the store holds one record, not two. *)
Lemma callback_reuses_repeated_identifier :
  issued_ids Sample.config Sample.world_repeating
    [Callback Sample.request_with_code; Callback Sample.request_with_code]
    initial_state
  = ["00000000-0000-4000-8000-000000000000";
     "00000000-0000-4000-8000-000000000000"]
  /\ size (session_store
             (run Sample.config Sample.world_repeating
                [Callback Sample.request_with_code] initial_state)) = 1%nat
  /\ size (session_store
             (run Sample.config Sample.world_repeating
                [Callback Sample.request_with_code;
                 Callback Sample.request_with_code] initial_state)) = 1%nat.
Proof. repeat split; vm_compute; reflexivity. Qed.

(** C9, as amended: a callback that answers with the redirect to [/] has
    drawn a new UUID, put it in the one cookie it sets and written the
    session record under it; when that identifier is not yet a key of the
    store, the store gains exactly one record and every earlier record is
    kept as it was; in a state reached from the empty store this is the
    case whenever the draw differs from every earlier draw; and over any
    sequence of calls from the empty store in which the draws are pairwise
    distinct, the identifiers handed out are pairwise distinct.  Nothing in
    the code checks that a draw is new: the property rests on the random
    source. *)
Theorem callback_identifier_is_fresh_draw
    (config : OIDCSettings) (world : World) :
  (forall request st response st',
     OIDCController.callback config world request st = (Return response, st') ->
     Starlette.location response = Some "/" ->
     cookie_values (Return response) = [next_uuid world st]
     /\ urandom_calls st' = S (urandom_calls st)
     /\ (exists record,
           session_store st' = <[next_uuid world st := record]> (session_store st))
     /\ (session_store st !! next_uuid world st = None ->
         size (session_store st') = S (size (session_store st))
         /\ forall k record,
              session_store st !! k = Some record ->
              session_store st' !! k = Some record))
  /\ (forall st,
        reachable config world st ->
        (forall i, (i < urandom_calls st)%nat ->
           UUID.uuid4_int (os_urandom world i)
           <> UUID.uuid4_int (os_urandom world (urandom_calls st))) ->
        session_store st !! next_uuid world st = None)
  /\ (forall calls,
        (forall i j : nat,
           (i < j)%nat ->
           (j < urandom_calls (run config world calls initial_state))%nat ->
           UUID.uuid4_int (os_urandom world i)
           <> UUID.uuid4_int (os_urandom world j)) ->
        NoDup (issued_ids config world calls initial_state)).
Proof.
  split.
  { intros request st response st' Hrun Hloc.
    destruct (callback_cases config world request st)
      as [(_ & _ & Hnone)|(ui & tok & Hret & Hstore & Hn)];
      rewrite Hrun in *; cbn [fst snd] in *.
    - exfalso. revert Hrun Hloc.
      destruct (opt_truthy (Starlette.query_params request !! "code")) eqn:Hcode.
      2: { rewrite callback_missing_code by exact Hcode.
           intros [= <- _]. discriminate. }
      unfold OIDCController.callback. rewrite Hcode. cbn [negb].
      unfold bind, send.
      destruct (provider world _ _) as [token_resp|]; [|discriminate].
      destruct (Z.eqb (Httpx.status_code token_resp) 200);
        cbn [negb]; [|intros [= <- _]; discriminate].
      intros Hrun Hloc.
      assert (Hc : cookie_values (Return response) <> []).
      { revert Hrun. unfold json, py_get, ret, bind, send, uuid4_str, store_setitem.
        destruct (Httpx.json token_resp) as [v|]; [|discriminate].
        destruct v; try discriminate.
        destruct (provider world _ _) as [user_resp|]; [|discriminate].
        destruct (Httpx.json user_resp) as [ui|]; [|discriminate].
        intros [= <- _]. discriminate. }
      contradiction.
    - injection Hret as Hret. subst response.
      split; [reflexivity|]. split; [exact Hn|].
      split; [exists (OIDCController.session_record ui tok); exact Hstore|].
      intros Hfresh. rewrite Hstore. split.
      + apply map_size_insert_None. exact Hfresh.
      + intros k record Hk. rewrite lookup_insert_ne; [exact Hk|].
        congruence. }
  split.
  { intros st Hst Hnew.
    destruct (session_store st !! next_uuid world st) as [record|] eqn:Hk;
      [|reflexivity].
    destruct (reachable_keys config world st Hst _ _ Hk) as (i & Hi & Heq).
    unfold next_uuid in Heq. apply UUIDFacts.to_str_uuid4_inj in Heq.
    exfalso. apply (Hnew i Hi). congruence. }
  intros calls Hdistinct.
  apply (issued_ids_draws config world calls initial_state).
  intros i j _ Hij Hj. apply Hdistinct; assumption.
Qed.

Lemma callback_identifier_is_fresh_draw_witness :
  NoDup (issued_ids Sample.config Sample.world
           [Callback Sample.request_with_code;
            Login Sample.request_without_code;
            Callback Sample.request_with_code] initial_state)
  /\ session_store initial_state !! next_uuid Sample.world initial_state = None.
Proof.
  split.
  - apply (proj2 (proj2
             (callback_identifier_is_fresh_draw Sample.config Sample.world))).
    intros i j Hij Hj.
    assert (Hn : urandom_calls
                   (run Sample.config Sample.world
                      [Callback Sample.request_with_code;
                       Login Sample.request_without_code;
                       Callback Sample.request_with_code] initial_state)
                 = 3%nat) by (vm_compute; reflexivity).
    rewrite Hn in Hj.
    destruct j as [|[|[|j]]]; [lia | | | lia].
    + destruct i as [|i]; [vm_compute; discriminate | lia].
    + destruct i as [|[|i]]; [vm_compute; discriminate .. | lia].
  - apply (proj1 (proj2
             (callback_identifier_is_fresh_draw Sample.config Sample.world))
             initial_state).
    + apply reachable_initial.
    + intros i Hi. simpl in Hi. lia.
Defined.

(** * Further properties *)

(** ** What the callback reads, and what its failures leave behind *)

(** X1: the [state] value of the authorization request is never checked:
    a callback runs the same way whatever [state] parameter the request
    carries, and [login], which generates the value, keeps no trace of it
    but the consumed random draw. *)
Theorem callback_ignores_state_parameter
    (config : OIDCSettings) (world : World)
    (request : Starlette.Request) (state : string) (st : State) :
  OIDCController.callback config world
    {| Starlette.query_params := <["state" := state]> (Starlette.query_params request);
       Starlette.cookies := Starlette.cookies request |} st
  = OIDCController.callback config world request st
  /\ snd (OIDCController.login config world request st)
     = {| session_store := session_store st;
          urandom_calls := S (urandom_calls st);
          http_log := http_log st |}.
Proof.
  split.
  - unfold OIDCController.callback. cbn [Starlette.query_params].
    rewrite lookup_insert_ne by discriminate. reflexivity.
  - rewrite login_run. reflexivity.
Qed.

Section Failures.

Variable config : OIDCSettings.
Variable world : World.

(** What a run of [callback] adds to the log of provider calls. *)
Lemma callback_log (request : Starlette.Request) (st : State) :
  exists sent,
    http_log (snd (OIDCController.callback config world request st))
    = (http_log st ++ sent)%list
    /\ (length sent <= 2)%nat
    /\ Forall (fun rq => to_token_endpoint config rq
                         \/ to_userinfo_endpoint config rq) sent.
Proof.
  assert (Htok : forall code,
            to_token_endpoint config (OIDCController.token_request config code)).
  { intros code. unfold to_token_endpoint. simpl. auto 10. }
  assert (Hui : forall tok,
            to_userinfo_endpoint config (OIDCController.userinfo_request config tok)).
  { intros tok. unfold to_userinfo_endpoint. simpl. eauto 10. }
  destruct (opt_truthy (Starlette.query_params request !! "code")) eqn:Hcode.
  2: { rewrite callback_missing_code by exact Hcode. exists [].
       rewrite app_nil_r. simpl. auto. }
  destruct (Starlette.query_params request !! "code") as [code|] eqn:Hq;
    [|discriminate Hcode].
  simpl in Hcode.
  unfold OIDCController.callback. rewrite Hq. unfold opt_truthy. rewrite Hcode.
  unfold bind, send, json, py_get, ret, uuid4_str, store_setitem. simpl.
  destruct (provider world (http_log st)
              (OIDCController.token_request config code)) as [token_resp|];
    [|exists [OIDCController.token_request config code]; simpl; auto 10].
  destruct (Z.eqb (Httpx.status_code token_resp) 200); simpl;
    [|exists [OIDCController.token_request config code]; simpl; auto 10].
  destruct (Httpx.json token_resp) as [tokens|]; simpl;
    [|exists [OIDCController.token_request config code]; simpl; auto 10].
  destruct tokens as [| | | | | |tokens]; simpl;
    try (exists [OIDCController.token_request config code]; simpl; solve [auto 10]).
  destruct (provider world _ _) as [user_resp|]; simpl.
  - destruct (Httpx.json user_resp) as [user_info|]; simpl;
      exists [OIDCController.token_request config code;
              OIDCController.userinfo_request config (dict_get tokens "access_token")];
      rewrite <- app_assoc; simpl; auto 10.
  - exists [OIDCController.token_request config code;
            OIDCController.userinfo_request config (dict_get tokens "access_token")].
    rewrite <- app_assoc. simpl. auto 10.
Qed.

(** What a run of [exchange_token] adds to it. *)
Lemma exchange_token_log (session_id target_client : string) (st : State) :
  exists sent,
    http_log (snd (OIDCController.exchange_token config world session_id
                     target_client st))
    = (http_log st ++ sent)%list
    /\ (length sent <= 1)%nat
    /\ Forall (fun rq => to_token_endpoint config rq
                         \/ to_userinfo_endpoint config rq) sent.
Proof.
  assert (Hex : forall tok,
            to_token_endpoint config
              (OIDCController.exchange_request config tok target_client)).
  { intros tok. unfold to_token_endpoint. simpl. auto 10. }
  unfold OIDCController.exchange_token, bind, store_contains, store_getitem.
  destruct (session_store st !! session_id) as [record|] eqn:Hrec.
  2: { rewrite bool_decide_eq_false_2 by (intros [? ?]; discriminate).
       exists []. rewrite app_nil_r. simpl. auto. }
  rewrite bool_decide_eq_true_2 by eauto.
  cbn [negb]. rewrite Hrec.
  destruct (py_truthy (dict_get record "access_token"));
    [|exists []; rewrite app_nil_r; simpl; auto].
  cbn [negb]. unfold send.
  exists [OIDCController.exchange_request config (dict_get record "access_token")
            target_client].
  destruct (provider world _ _) as [exchange_resp|]; [|simpl; auto 10].
  destruct (Z.eqb (Httpx.status_code exchange_resp) 200); [|simpl; auto 10].
  cbn [negb]. unfold json.
  destruct (Httpx.json exchange_resp) as [v|]; [|simpl; auto 10].
  destruct v; simpl; auto 10.
Qed.

End Failures.

(** X2: when [callback] raises, the exception is a failed provider call
    ([RequestError]), a body that is no JSON ([JSONDecodeError]) or a token
    body that is no object ([AttributeError]); the request carried a code
    and the token request was sent; and no session was created: the store
    and the random source are as before. *)
Theorem callback_exception_creates_no_session
    (config : OIDCSettings) (world : World)
    (request : Starlette.Request) (st st' : State) (e : PyExc) :
  OIDCController.callback config world request st = (Raise e, st') ->
  (e = RequestError \/ e = JSONDecodeError \/ e = AttributeError)
  /\ session_store st' = session_store st
  /\ urandom_calls st' = urandom_calls st
  /\ exists code,
       Starlette.query_params request !! "code" = Some code
       /\ code <> ""
       /\ In (OIDCController.token_request config code) (http_log st').
Proof.
  intros Hrun.
  destruct (opt_truthy (Starlette.query_params request !! "code")) eqn:Hcode.
  2: { rewrite callback_missing_code in Hrun by exact Hcode. discriminate. }
  destruct (Starlette.query_params request !! "code") as [code|] eqn:Hq;
    [|discriminate Hcode].
  simpl in Hcode.
  assert (Hne : code <> "") by (intros ->; discriminate).
  revert Hrun.
  unfold OIDCController.callback. rewrite Hq. unfold opt_truthy. rewrite Hcode.
  unfold bind, send, json, py_get, ret, uuid4_str, store_setitem, raise. simpl.
  destruct (provider world (http_log st)
              (OIDCController.token_request config code)) as [token_resp|].
  2: { intros [= <- <-]. simpl. repeat split; auto.
       exists code. repeat split; auto. apply in_or_app. right. now left. }
  destruct (Z.eqb (Httpx.status_code token_resp) 200); simpl; [|discriminate].
  destruct (Httpx.json token_resp) as [tokens|]; simpl.
  2: { intros [= <- <-]. simpl. repeat split; auto.
       exists code. repeat split; auto. apply in_or_app. right. now left. }
  destruct tokens as [| | | | | |tokens]; simpl;
    try (intros [= <- <-]; simpl; repeat split; auto 10;
         exists code; repeat split; auto; apply in_or_app; right; now left).
  destruct (provider world _ _) as [user_resp|]; simpl.
  - destruct (Httpx.json user_resp) as [user_info|]; simpl; [discriminate|].
    intros [= <- <-]. simpl. repeat split; auto.
    exists code. repeat split; auto.
    apply in_or_app. left. apply in_or_app. right. now left.
  - intros [= <- <-]. simpl. repeat split; auto.
    exists code. repeat split; auto.
    apply in_or_app. left. apply in_or_app. right. now left.
Qed.

Lemma callback_exception_creates_no_session_witness :
  (RequestError = RequestError \/ RequestError = JSONDecodeError
   \/ RequestError = AttributeError)
  /\ session_store
       {| session_store := ∅; urandom_calls := O;
          http_log := [OIDCController.token_request Sample.config "xyz"] |}
     = session_store initial_state
  /\ urandom_calls
       {| session_store := ∅; urandom_calls := O;
          http_log := [OIDCController.token_request Sample.config "xyz"] |}
     = urandom_calls initial_state
  /\ exists code,
       Starlette.query_params Sample.request_with_code !! "code" = Some code
       /\ code <> ""
       /\ In (OIDCController.token_request Sample.config code)
            (http_log
               {| session_store := ∅; urandom_calls := O;
                  http_log := [OIDCController.token_request Sample.config "xyz"] |}).
Proof.
  apply (callback_exception_creates_no_session Sample.config Sample.world_offline
           Sample.request_with_code initial_state).
  vm_compute. reflexivity.
Defined.

(** X3: [exchange_token] raises only after it has called the provider for
    a known session with a usable token: [RequestError] when the call
    fails, [JSONDecodeError] when a 200 answer is no JSON, [AttributeError]
    when it is JSON but no object; it never raises [KeyError], and the
    session store is as before. *)
Theorem exchange_token_exception
    (config : OIDCSettings) (world : World)
    (session_id target_client : string) (st st' : State) (e : PyExc) :
  OIDCController.exchange_token config world session_id target_client st
    = (Raise e, st') ->
  session_store st' = session_store st
  /\ exists record,
       session_store st !! session_id = Some record
       /\ py_truthy (dict_get record "access_token") = true
       /\ ((provider world (http_log st)
              (OIDCController.exchange_request config
                 (dict_get record "access_token") target_client)
            = Httpx.Failed
            /\ e = RequestError)
           \/ exists exchange_resp,
                provider world (http_log st)
                  (OIDCController.exchange_request config
                     (dict_get record "access_token") target_client)
                = Httpx.Responded exchange_resp
                /\ Httpx.status_code exchange_resp = 200
                /\ ((Httpx.json exchange_resp = None /\ e = JSONDecodeError)
                    \/ (exists v, Httpx.json exchange_resp = Some v
                          /\ (forall d, v <> PyDict d)
                          /\ e = AttributeError))).
Proof.
  intros Hrun. split.
  { pose proof (exchange_token_store config world session_id target_client st)
      as Hs.
    rewrite Hrun in Hs. exact Hs. }
  destruct (session_store st !! session_id) as [record|] eqn:Hrec.
  2: { rewrite exchange_token_unknown in Hrun by exact Hrec. discriminate. }
  destruct (py_truthy (dict_get record "access_token")) eqn:Htruthy.
  2: { rewrite (exchange_token_no_subject config world _ _ _ record) in Hrun
         by assumption.
       discriminate. }
  exists record. split; [reflexivity|]. split; [exact Htruthy|].
  destruct (provider world (http_log st)
              (OIDCController.exchange_request config
                 (dict_get record "access_token") target_client))
    as [exchange_resp|] eqn:Hresp.
  - right. exists exchange_resp. split; [reflexivity|].
    destruct (Z.eq_dec (Httpx.status_code exchange_resp) 200) as [Hs|Hs].
    2: { rewrite (exchange_token_refused config world _ _ _ record exchange_resp)
           in Hrun by assumption.
         discriminate. }
    split; [exact Hs|].
    destruct (Httpx.json exchange_resp) as [v|] eqn:Hjson.
    + right. exists v. split; [reflexivity|].
      destruct v as [| | | | | |d];
        try (split; [discriminate|]).
      all: revert Hrun;
        unfold OIDCController.exchange_token, bind, store_contains, store_getitem;
        rewrite bool_decide_eq_true_2 by (rewrite Hrec; eauto);
        cbn [negb]; rewrite Hrec, Htruthy; cbn [negb];
        unfold send; rewrite Hresp, Hs; cbn [Z.eqb Pos.eqb negb];
        unfold json; rewrite Hjson; unfold ret, py_get, raise;
        intros [= <- _]; reflexivity.
    + left. split; [reflexivity|].
      revert Hrun.
      unfold OIDCController.exchange_token, bind, store_contains, store_getitem.
      rewrite bool_decide_eq_true_2 by (rewrite Hrec; eauto).
      cbn [negb]. rewrite Hrec, Htruthy. cbn [negb].
      unfold send. rewrite Hresp, Hs. cbn [Z.eqb Pos.eqb negb].
      unfold json. rewrite Hjson. unfold raise. intros [= <- _]. reflexivity.
  - left. split; [reflexivity|].
    revert Hrun.
    unfold OIDCController.exchange_token, bind, store_contains, store_getitem.
    rewrite bool_decide_eq_true_2 by (rewrite Hrec; eauto).
    cbn [negb]. rewrite Hrec, Htruthy. cbn [negb].
    unfold send. rewrite Hresp. intros [= <- _]. reflexivity.
Qed.

Lemma exchange_token_exception_witness :
  session_store
    {| session_store := session_store Sample.logged_in;
       urandom_calls := urandom_calls Sample.logged_in;
       http_log := http_log Sample.logged_in ++ [Sample.exchange_request] |}
  = session_store Sample.logged_in.
Proof.
  apply (proj1 (exchange_token_exception Sample.config Sample.world_offline
                  Sample.session_id "svc-a" Sample.logged_in
                  {| session_store := session_store Sample.logged_in;
                     urandom_calls := urandom_calls Sample.logged_in;
                     http_log :=
                       http_log Sample.logged_in ++ [Sample.exchange_request] |}
                  RequestError ltac:(vm_compute; reflexivity))).
Defined.

(** ** What the controller sends to the provider *)

(** X4: in every state reached from the initial one, each request the
    controller has sent is either a POST to [TOKEN_URL] carrying the client
    id and the client secret with [Accept: application/json], or a GET to
    [USERINFO_URL] with no form data and a bearer [Authorization] header:
    the client secret goes to the token endpoint only, and no other URL is
    ever contacted. *)
Theorem controller_contacts_only_its_endpoints
    (config : OIDCSettings) (world : World) (st : State) :
  reachable config world st ->
  forall rq, In rq (http_log st) ->
    to_token_endpoint config rq \/ to_userinfo_endpoint config rq.
Proof.
  induction 1 as [|c st Hst IH]; intros rq Hin.
  - destruct Hin.
  - destruct c as [request|request|request|session_id target_client];
      unfold step in Hin.
    + rewrite login_run in Hin. apply IH. exact Hin.
    + destruct (callback_log config world request st) as (sent & Hlog & _ & Hall).
      rewrite Hlog in Hin. apply in_app_or in Hin as [Hin|Hin]; [now apply IH|].
      rewrite Forall_forall in Hall. apply Hall.
      apply list_elem_of_In. exact Hin.
    + rewrite logout_run in Hin. apply IH. exact Hin.
    + destruct (exchange_token_log config world session_id target_client st)
        as (sent & Hlog & _ & Hall).
      rewrite Hlog in Hin. apply in_app_or in Hin as [Hin|Hin]; [now apply IH|].
      rewrite Forall_forall in Hall. apply Hall.
      apply list_elem_of_In. exact Hin.
Qed.

Lemma controller_contacts_only_its_endpoints_witness :
  to_token_endpoint Sample.config (OIDCController.token_request Sample.config "xyz")
  \/ to_userinfo_endpoint Sample.config
       (OIDCController.token_request Sample.config "xyz").
Proof.
  apply (controller_contacts_only_its_endpoints Sample.config Sample.world
           Sample.logged_in).
  - apply reachable_step. apply reachable_initial.
  - vm_compute. left. reflexivity.
Defined.

(** X5: [login] and [logout] never call the provider; [callback] calls it
    at most twice, and not at all without a code; [exchange_token] calls it
    at most once, and not at all for an unknown session. *)
Theorem provider_calls_are_bounded
    (config : OIDCSettings) (world : World) (st : State) :
  (forall request,
     http_log (snd (OIDCController.login config world request st)) = http_log st)
  /\ (forall request,
        http_log (snd (OIDCController.logout request st)) = http_log st)
  /\ (forall request,
        exists sent,
          http_log (snd (OIDCController.callback config world request st))
          = (http_log st ++ sent)%list
          /\ (length sent <= 2)%nat)
  /\ (forall request,
        Starlette.query_params request !! "code" = None ->
        http_log (snd (OIDCController.callback config world request st))
        = http_log st)
  /\ (forall session_id target_client,
        exists sent,
          http_log (snd (OIDCController.exchange_token config world session_id
                           target_client st))
          = (http_log st ++ sent)%list
          /\ (length sent <= 1)%nat)
  /\ (forall session_id target_client,
        session_store st !! session_id = None ->
        http_log (snd (OIDCController.exchange_token config world session_id
                         target_client st))
        = http_log st).
Proof.
  split; [intros request; rewrite login_run; reflexivity|].
  split; [intros request; rewrite logout_run; reflexivity|].
  split.
  { intros request.
    destruct (callback_log config world request st) as (sent & Hlog & Hlen & _).
    exists sent. auto. }
  split.
  { intros request Hnone. rewrite callback_missing_code; [reflexivity|].
    now rewrite Hnone. }
  split.
  { intros session_id target_client.
    destruct (exchange_token_log config world session_id target_client st)
      as (sent & Hlog & Hlen & _).
    exists sent. auto. }
  intros session_id target_client Hnone.
  rewrite exchange_token_unknown by exact Hnone. reflexivity.
Qed.

(** ** Sessions from login to logout *)

(** X6: logging out with the cookie a successful callback has just set
    undoes that callback: when the identifier was not yet in the store,
    the store after the logout is the store before the callback. *)
Theorem logout_undoes_callback
    (config : OIDCSettings) (world : World)
    (request logout_request : Starlette.Request) (st st' : State)
    (response : Starlette.Response) (session_id : string) :
  OIDCController.callback config world request st = (Return response, st') ->
  cookie_values (Return response) = [session_id] ->
  session_store st !! session_id = None ->
  Starlette.cookies logout_request !! "session_id" = Some session_id ->
  session_store (snd (OIDCController.logout logout_request st'))
  = session_store st.
Proof.
  intros Hrun Hcookie Hfresh Hlogout.
  destruct (callback_cases config world request st)
    as [(_ & _ & Hnone)|(ui & tok & Hret & Hstore & _)];
    rewrite Hrun in *; cbn [fst snd] in *.
  - rewrite Hcookie in Hnone. discriminate.
  - injection Hret as Hret. subst response.
    cbn in Hcookie. injection Hcookie as <-.
    rewrite logout_run. cbn [snd session_store]. rewrite Hlogout.
    unfold next_uuid. rewrite UUIDFacts.to_str_truthy.
    rewrite Hstore. unfold next_uuid. apply delete_insert_id.
    exact Hfresh.
Qed.

Lemma logout_undoes_callback_witness :
  session_store
    (snd (OIDCController.logout (Sample.request_with_cookie Sample.session_id)
            Sample.logged_in))
  = session_store initial_state.
Proof.
  apply (logout_undoes_callback Sample.config Sample.world
           Sample.request_with_code
           (Sample.request_with_cookie Sample.session_id)
           initial_state Sample.logged_in
           (Starlette.set_cookie (Starlette.RedirectResponse "/")
              (OIDCController.session_cookie Sample.config Sample.session_id))
           Sample.session_id).
  - vm_compute. reflexivity.
  - vm_compute. reflexivity.
  - vm_compute. reflexivity.
  - vm_compute. reflexivity.
Defined.

(** X7: once a logout has been made with a session cookie, a token
    exchange for that session identifier returns [None] without calling
    the provider, whether or not the session existed. *)
Theorem exchange_after_logout_returns_none
    (config : OIDCSettings) (world : World)
    (request : Starlette.Request) (st : State)
    (session_id target_client : string) :
  Starlette.cookies request !! "session_id" = Some session_id ->
  session_id <> "" ->
  OIDCController.exchange_token config world session_id target_client
    (snd (OIDCController.logout request st))
  = (Return PyNone, snd (OIDCController.logout request st)).
Proof.
  intros Hcookie Hne. apply exchange_token_unknown.
  rewrite logout_run. cbn [snd session_store]. rewrite Hcookie.
  rewrite (str_truthy_nonempty _ Hne). apply lookup_delete_eq.
Qed.

Lemma exchange_after_logout_returns_none_witness :
  OIDCController.exchange_token Sample.config Sample.world Sample.session_id
    "svc-a"
    (snd (OIDCController.logout (Sample.request_with_cookie Sample.session_id)
            Sample.logged_in))
  = (Return PyNone,
     snd (OIDCController.logout (Sample.request_with_cookie Sample.session_id)
            Sample.logged_in)).
Proof.
  apply (exchange_after_logout_returns_none Sample.config Sample.world
           (Sample.request_with_cookie Sample.session_id) Sample.logged_in
           Sample.session_id "svc-a").
  - vm_compute. reflexivity.
  - vm_compute. discriminate.
Defined.

(** The text of a UUID is 36 characters long. *)
Lemma length_dashed (x : string) :
  String.length x = 32%nat -> String.length (UUID.dashed x) = 36%nat.
Proof.
  intros H.
  do 32 (destruct x as [|? x]; [discriminate H|]).
  destruct x; [reflexivity | discriminate H].
Qed.

Lemma length_to_str (n : Z) : String.length (UUID.to_str n) = 36%nat.
Proof. apply length_dashed. apply UUIDFacts.length_format_hex. Qed.

Lemma session_record_access_token (user_info access_token : PyVal) :
  dict_get (OIDCController.session_record user_info access_token) "access_token"
  = access_token.
Proof.
  unfold dict_get, OIDCController.session_record.
  rewrite lookup_insert_ne by discriminate.
  now rewrite lookup_singleton_eq.
Qed.

(** X8: in every state reached from the empty store, each key of the
    session store is the text of a UUID that the random source produced at
    an earlier draw, hence 36 characters long, and each record is a
    dictionary with exactly the two entries [user] and [access_token]
    written by a callback. *)
Theorem stored_sessions_are_well_formed
    (config : OIDCSettings) (world : World) (st : State) :
  reachable config world st ->
  forall k record,
    session_store st !! k = Some record ->
    (exists i, (i < urandom_calls st)%nat
       /\ k = UUID.to_str (UUID.uuid4_int (os_urandom world i)))
    /\ String.length k = 36%nat
    /\ exists user_info access_token,
         record = {[ "user" := user_info; "access_token" := access_token ]}
         /\ dom record = {[ "user"; "access_token" ]}
         /\ dict_get record "access_token" = access_token.
Proof.
  intros Hst k record Hk.
  destruct (reachable_keys config world st Hst k record Hk) as (i & Hi & Hkey).
  split; [exists i; split; assumption|].
  split; [rewrite Hkey; apply length_to_str|].
  clear i Hi Hkey. revert k record Hk.
  induction Hst as [|c st Hst IH]; intros k record Hk.
  - simpl in Hk. rewrite lookup_empty in Hk. discriminate.
  - destruct c as [request|request|request|session_id target_client];
      unfold step in Hk.
    + rewrite login_store in Hk. eauto.
    + destruct (callback_cases config world request st)
        as [(Hs & _ & _)|(ui & tok & _ & Hs & _)]; rewrite Hs in Hk; [eauto|].
      apply lookup_insert_Some in Hk as [[_ <-]|[_ Hk]]; [|eauto].
      exists ui, tok. split; [reflexivity|]. split.
      * unfold OIDCController.session_record.
        rewrite dom_insert_L, dom_singleton_L. reflexivity.
      * apply session_record_access_token.
    + destruct (logout_store request st) as [Hs|(sid & _ & _ & Hs)];
        rewrite Hs in Hk; [eauto|].
      apply lookup_delete_Some in Hk as [_ Hk]. eauto.
    + rewrite exchange_token_store in Hk. eauto.
Qed.

Lemma stored_sessions_are_well_formed_witness :
  (exists i, (i < urandom_calls Sample.logged_in)%nat
     /\ Sample.session_id
        = UUID.to_str (UUID.uuid4_int (os_urandom Sample.world i)))
  /\ String.length Sample.session_id = 36%nat
  /\ exists user_info access_token,
       Sample.record = {[ "user" := user_info; "access_token" := access_token ]}
       /\ dom Sample.record = {[ "user"; "access_token" ]}
       /\ dict_get Sample.record "access_token" = access_token.
Proof.
  apply (stored_sessions_are_well_formed Sample.config Sample.world
           Sample.logged_in).
  - apply reachable_step. apply reachable_initial.
  - vm_compute. reflexivity.
Defined.

(** X9: a session never expires: a record stays in the store, unchanged,
    through every call except a logout carrying its identifier as cookie
    (and a callback that would draw that same identifier again). *)
Theorem session_survives_other_calls
    (config : OIDCSettings) (world : World) (c : Call) (st : State)
    (session_id : string) (record : gmap string PyVal) :
  session_store st !! session_id = Some record ->
  (forall request, c = Logout request ->
     Starlette.cookies request !! "session_id" <> Some session_id) ->
  (forall request, c = Callback request -> next_uuid world st <> session_id) ->
  session_store (step config world c st) !! session_id = Some record.
Proof.
  intros Hrec Hlogout Hcallback.
  destruct c as [request|request|request|sid target_client]; unfold step.
  - now rewrite login_store.
  - destruct (callback_cases config world request st)
      as [(Hs & _ & _)|(ui & tok & _ & Hs & _)]; rewrite Hs; [exact Hrec|].
    rewrite lookup_insert_ne by (apply (Hcallback request); reflexivity).
    exact Hrec.
  - destruct (logout_store request st) as [Hs|(sid & Hc & _ & Hs)];
      rewrite Hs; [exact Hrec|].
    rewrite lookup_delete_ne; [exact Hrec|].
    intros ->. apply (Hlogout request); [reflexivity | exact Hc].
  - now rewrite exchange_token_store.
Qed.

Lemma session_survives_other_calls_witness :
  session_store
    (step Sample.config Sample.world
       (Logout (Sample.request_with_cookie "someone-else")) Sample.logged_in)
  !! Sample.session_id
  = Some Sample.record.
Proof.
  apply (session_survives_other_calls Sample.config Sample.world
           (Logout (Sample.request_with_cookie "someone-else")) Sample.logged_in
           Sample.session_id Sample.record).
  - vm_compute. reflexivity.
  - intros request [= <-]. vm_compute. discriminate.
  - intros request H. discriminate H.
Defined.

(** A token exchange for a session with a usable token sends exactly one
    request, whatever the provider answers. *)
Lemma exchange_token_sends
    (config : OIDCSettings) (world : World)
    (session_id target_client : string) (st : State)
    (record : gmap string PyVal) :
  session_store st !! session_id = Some record ->
  py_truthy (dict_get record "access_token") = true ->
  http_log (snd (OIDCController.exchange_token config world session_id
                   target_client st))
  = (http_log st
       ++ [OIDCController.exchange_request config
             (dict_get record "access_token") target_client])%list.
Proof.
  intros Hrec Htruthy.
  unfold OIDCController.exchange_token, bind, store_contains, store_getitem.
  rewrite bool_decide_eq_true_2 by (rewrite Hrec; eauto).
  cbn [negb]. rewrite Hrec, Htruthy. cbn [negb]. unfold send.
  destruct (provider world _ _) as [exchange_resp|]; [|reflexivity].
  destruct (Z.eqb (Httpx.status_code exchange_resp) 200); [|reflexivity].
  cbn [negb]. unfold json.
  destruct (Httpx.json exchange_resp) as [v|]; [|reflexivity].
  destruct v; reflexivity.
Qed.

(** X10: after a successful callback whose token response held a usable
    access token, a token exchange for the session just created sends one
    request to the token endpoint, whose [subject_token] is that access
    token and whose [audience] is the target given, with the
    [token-exchange] grant type. *)
Theorem exchange_presents_the_token_of_the_callback
    (config : OIDCSettings) (world : World)
    (request : Starlette.Request) (st : State)
    (code target_client : string) (token_resp user_resp : Httpx.Response)
    (tokens : gmap string PyVal) (user_info : PyVal) :
  Starlette.query_params request !! "code" = Some code ->
  code <> "" ->
  provider world (http_log st) (OIDCController.token_request config code)
    = Httpx.Responded token_resp ->
  Httpx.status_code token_resp = 200 ->
  Httpx.json token_resp = Some (PyDict tokens) ->
  py_truthy (dict_get tokens "access_token") = true ->
  provider world
    (http_log st ++ [OIDCController.token_request config code])
    (OIDCController.userinfo_request config (dict_get tokens "access_token"))
    = Httpx.Responded user_resp ->
  Httpx.json user_resp = Some user_info ->
  exists sent,
    http_log
      (snd (OIDCController.exchange_token config world (next_uuid world st)
              target_client
              (snd (OIDCController.callback config world request st))))
    = (http_log (snd (OIDCController.callback config world request st))
         ++ [sent])%list
    /\ Httpx.method sent = Httpx.POST
    /\ Httpx.url sent = TOKEN_URL config
    /\ In ("grant_type", PyStr "urn:ietf:params:oauth:grant-type:token-exchange")
         (Httpx.data sent)
    /\ In ("subject_token", dict_get tokens "access_token") (Httpx.data sent)
    /\ In ("audience", PyStr target_client) (Httpx.data sent).
Proof.
  intros Hcode Hne Htok Hstatus Hjson Htruthy Huser Hujson.
  apply str_truthy_nonempty in Hne.
  rewrite (callback_run config world request st code token_resp user_resp tokens
             user_info) by assumption.
  cbn [snd].
  exists (OIDCController.exchange_request config (dict_get tokens "access_token")
            target_client).
  split.
  - rewrite (exchange_token_sends config world _ _ _
               (OIDCController.session_record user_info
                  (dict_get tokens "access_token"))).
    + now rewrite session_record_access_token.
    + cbn [session_store]. apply lookup_insert_eq.
    + rewrite session_record_access_token. exact Htruthy.
  - unfold OIDCController.exchange_request.
    cbn [Httpx.method Httpx.url Httpx.data].
    repeat split; simpl; auto 10.
Qed.

Lemma exchange_presents_the_token_of_the_callback_witness :
  exists sent,
    http_log
      (snd (OIDCController.exchange_token Sample.config Sample.world
              (next_uuid Sample.world initial_state) "svc-a"
              (snd (OIDCController.callback Sample.config Sample.world
                      Sample.request_with_code initial_state))))
    = (http_log (snd (OIDCController.callback Sample.config Sample.world
                        Sample.request_with_code initial_state))
         ++ [sent])%list
    /\ Httpx.method sent = Httpx.POST
    /\ Httpx.url sent = TOKEN_URL Sample.config
    /\ In ("grant_type", PyStr "urn:ietf:params:oauth:grant-type:token-exchange")
         (Httpx.data sent)
    /\ In ("subject_token",
           dict_get {[ "access_token" := PyStr "tok1" ]} "access_token")
         (Httpx.data sent)
    /\ In ("audience", PyStr "svc-a") (Httpx.data sent).
Proof.
  apply (exchange_presents_the_token_of_the_callback Sample.config Sample.world
           Sample.request_with_code initial_state "xyz" "svc-a"
           {| Httpx.status_code := 200;
              Httpx.json := Some (PyDict {[ "access_token" := PyStr "tok1" ]}) |}
           {| Httpx.status_code := 200;
              Httpx.json := Some (PyDict {[ "email" := PyStr "a@b.com" ]}) |}
           {[ "access_token" := PyStr "tok1" ]}
           (PyDict {[ "email" := PyStr "a@b.com" ]})).
  - vm_compute. reflexivity.
  - discriminate.
  - vm_compute. reflexivity.
  - reflexivity.
  - reflexivity.
  - vm_compute. reflexivity.
  - vm_compute. reflexivity.
  - reflexivity.
Defined.

(** ** The text of a session identifier *)

Lemma get_append_l (a b : string) (k : nat) :
  (k < String.length a)%nat -> String.get k (a +:+ b) = String.get k a.
Proof.
  revert k. induction a as [|c a IH]; intros k Hk; simpl in Hk; [lia|].
  rewrite append_cons. destruct k as [|k]; simpl; [reflexivity|].
  apply IH. lia.
Qed.

Lemma get_append_r (a b : string) (k : nat) :
  String.get (String.length a + k) (a +:+ b) = String.get k b.
Proof.
  induction a as [|c a IH]; [reflexivity|].
  rewrite append_cons. simpl. exact IH.
Qed.

(** The digit at each position of ['%0<w>x' % n]. *)
Lemma format_hex_get (w : nat) (n : Z) (k : nat) :
  (k < w)%nat ->
  String.get k (UUID.format_hex w n)
  = Some (UUID.hex_char ((n / 16 ^ Z.of_nat (w - 1 - k)) mod 16)).
Proof.
  revert n k. induction w as [|w IH]; intros n k Hk; [lia|].
  simpl UUID.format_hex.
  destruct (Nat.eq_dec k w) as [->|Hne].
  - rewrite <- (Nat.add_0_r w) at 1.
    rewrite <- (UUIDFacts.length_format_hex w (n / 16)) at 1.
    rewrite get_append_r. simpl String.get.
    replace (S w - 1 - w)%nat with 0%nat by lia.
    simpl. now rewrite Z.div_1_r.
  - rewrite get_append_l by (rewrite UUIDFacts.length_format_hex; lia).
    rewrite IH by lia.
    replace (S w - 1 - k)%nat with (S (w - 1 - k)) by lia.
    rewrite Nat2Z.inj_succ, Z.pow_succ_r by lia.
    rewrite Z.div_div by lia. reflexivity.
Qed.

(** The version bits: the nibble at bits 76 to 79 is 4. *)
Lemma uuid4_version_nibble (r : Z) : (UUID.uuid4_int r / 16 ^ 19) mod 16 = 4.
Proof.
  change (16 ^ 19) with (2 ^ 76). change 16 with (2 ^ 4).
  rewrite <- Z.shiftr_div_pow2, <- Z.land_ones by lia.
  unfold UUID.uuid4_int. set (x := UUID.from_random r).
  apply Z.bits_inj'. intros i Hi.
  rewrite Z.land_spec, Z.shiftr_spec by lia.
  destruct (Z_lt_le_dec i 4) as [Hlt|Hge].
  - unfold UUID.set_version4.
    rewrite Z.lor_spec, Z.land_spec, Z.lor_spec, Z.land_spec.
    assert (E : i = 0 \/ i = 1 \/ i = 2 \/ i = 3) by lia.
    destruct E as [-> | [-> | [-> | ->] ] ];
      match goal with
      | |- context [Z.testbit x ?k] => destruct (Z.testbit x k)
      end; vm_compute; reflexivity.
  - rewrite Z.ones_spec_high by lia. rewrite andb_false_r.
    symmetry. change 4 with (2 ^ 2). apply Z.pow2_bits_false. lia.
Qed.

(** The variant bits: the nibble at bits 60 to 63 is 8, 9, 10 or 11. *)
Lemma uuid4_variant_nibble (r : Z) :
  8 <= (UUID.uuid4_int r / 16 ^ 15) mod 16 <= 11.
Proof.
  assert (H : Z.land ((UUID.uuid4_int r / 16 ^ 15) mod 16) 12 = 8).
  { change (16 ^ 15) with (2 ^ 60). change 16 with (2 ^ 4).
    rewrite <- Z.shiftr_div_pow2, <- Z.land_ones by lia.
    unfold UUID.uuid4_int. set (x := UUID.from_random r).
    apply Z.bits_inj'. intros i Hi.
    rewrite !Z.land_spec, Z.shiftr_spec by lia.
    destruct (Z_lt_le_dec i 4) as [Hlt|Hge].
    - unfold UUID.set_version4.
      rewrite Z.lor_spec, Z.land_spec, Z.lor_spec, Z.land_spec.
      assert (E : i = 0 \/ i = 1 \/ i = 2 \/ i = 3) by lia.
      destruct E as [-> | [-> | [-> | ->] ] ];
        match goal with
        | |- context [Z.testbit x ?k] => destruct (Z.testbit x k)
        end; vm_compute; reflexivity.
    - rewrite Z.ones_spec_high by lia. rewrite andb_false_r.
      symmetry. change 8 with (2 ^ 3).
      destruct (Z.eq_dec i 3) as [->|Hne]; [lia|].
      apply Z.pow2_bits_false. lia. }
  pose proof (Z.mod_pos_bound (UUID.uuid4_int r / 16 ^ 15) 16 ltac:(lia)) as Hb.
  set (v := (UUID.uuid4_int r / 16 ^ 15) mod 16) in *.
  assert (E : v = 0 \/ v = 1 \/ v = 2 \/ v = 3 \/ v = 4 \/ v = 5 \/ v = 6
              \/ v = 7 \/ v = 8 \/ v = 9 \/ v = 10 \/ v = 11 \/ v = 12
              \/ v = 13 \/ v = 14 \/ v = 15) by lia.
  repeat (destruct E as [E | E]; [rewrite E in H |- *; vm_compute in H;
                                  first [discriminate H | lia]|]).
  rewrite E in H. vm_compute in H. discriminate H.
Qed.

(** Where the dashes and the digits of [UUID.dashed] are. *)
Lemma dashed_get (x : string) :
  String.length x = 32%nat ->
  String.get 8 (UUID.dashed x) = Some "-"%char
  /\ String.get 13 (UUID.dashed x) = Some "-"%char
  /\ String.get 18 (UUID.dashed x) = Some "-"%char
  /\ String.get 23 (UUID.dashed x) = Some "-"%char
  /\ String.get 14 (UUID.dashed x) = String.get 12 x
  /\ String.get 19 (UUID.dashed x) = String.get 16 x.
Proof.
  intros H.
  do 32 (destruct x as [|? x]; [discriminate H|]).
  destruct x; [|discriminate H].
  repeat split; reflexivity.
Qed.

Lemma in_substring (c : ascii) (s : string) (n m : nat) :
  In c (list_ascii_of_string (substring n m s)) -> In c (list_ascii_of_string s).
Proof.
  revert n m. induction s as [|a s IH]; intros n m H.
  - destruct n, m; exact H.
  - destruct n as [|n]; simpl in H.
    + destruct m as [|m]; simpl in H; [destruct H|].
      destruct H as [H|H]; [now left | right; eapply IH; exact H].
    + right. eapply IH. exact H.
Qed.

Lemma in_format_hex (c : ascii) (w : nat) (n : Z) :
  In c (list_ascii_of_string (UUID.format_hex w n)) ->
  Urllib.mem c "0123456789abcdef" = true.
Proof.
  revert n. induction w as [|w IH]; intros n H; [destruct H|].
  simpl in H. rewrite list_ascii_append in H.
  apply in_app_or in H as [H|H]; [eapply IH; exact H|].
  destruct H as [<-|[]].
  pose proof (Z.mod_pos_bound n 16 ltac:(lia)) as Hb.
  set (d := n mod 16) in *.
  assert (E : d = 0 \/ d = 1 \/ d = 2 \/ d = 3 \/ d = 4 \/ d = 5 \/ d = 6
              \/ d = 7 \/ d = 8 \/ d = 9 \/ d = 10 \/ d = 11 \/ d = 12
              \/ d = 13 \/ d = 14 \/ d = 15) by lia.
  repeat (destruct E as [-> | E]; [reflexivity|]). subst d. rewrite E.
  reflexivity.
Qed.

Lemma mem_alphabet (c : ascii) :
  Urllib.mem c "0123456789abcdef" = true -> Urllib.mem c UUID_ALPHABET = true.
Proof.
  unfold Urllib.mem, UUID_ALPHABET. simpl.
  intros H. repeat (apply orb_prop in H as [H|H]; [rewrite H; simpl;
                    rewrite ?orb_true_r; reflexivity|]).
  discriminate H.
Qed.

(** X11: the identifier drawn for a session (and for the [state] of a
    login) is the text of a version-4 UUID: 36 characters, dashes at
    positions 8, 13, 18 and 23, the version digit [4] at position 14, a
    variant digit [8], [9], [a] or [b] at position 19, and nothing but
    lower-case hexadecimal digits and dashes. *)
Theorem session_id_is_uuid4_text (world : World) (st : State) :
  String.length (next_uuid world st) = 36%nat
  /\ String.get 8 (next_uuid world st) = Some "-"%char
  /\ String.get 13 (next_uuid world st) = Some "-"%char
  /\ String.get 18 (next_uuid world st) = Some "-"%char
  /\ String.get 23 (next_uuid world st) = Some "-"%char
  /\ String.get 14 (next_uuid world st) = Some "4"%char
  /\ (exists v, String.get 19 (next_uuid world st) = Some v
        /\ In v ["8"; "9"; "a"; "b"]%char)
  /\ forall c, In c (list_ascii_of_string (next_uuid world st)) ->
       Urllib.mem c UUID_ALPHABET = true.
Proof.
  unfold next_uuid, UUID.to_str, UUID.hex.
  set (n := UUID.uuid4_int (os_urandom world (urandom_calls st))).
  pose proof (UUIDFacts.length_format_hex 32 n) as Hlen.
  destruct (dashed_get _ Hlen) as (H8 & H13 & H18 & H23 & H14 & H19).
  split; [apply length_dashed; exact Hlen|].
  split; [exact H8|]. split; [exact H13|]. split; [exact H18|].
  split; [exact H23|]. split.
  { rewrite H14, format_hex_get by lia.
    change (Z.of_nat (32 - 1 - 12)) with 19.
    unfold n. now rewrite uuid4_version_nibble. }
  split.
  { rewrite H19, format_hex_get by lia.
    change (Z.of_nat (32 - 1 - 16)) with 15.
    pose proof (uuid4_variant_nibble (os_urandom world (urandom_calls st))) as Hv.
    fold n in Hv. set (v := (n / 16 ^ 15) mod 16) in *.
    eexists. split; [reflexivity|].
    assert (E : v = 8 \/ v = 9 \/ v = 10 \/ v = 11) by lia.
    destruct E as [-> | [-> | [-> | ->] ] ]; simpl; auto. }
  intros c Hc. unfold UUID.dashed, UUID.slice, UUID.slice_from in Hc.
  rewrite !list_ascii_append in Hc.
  repeat (apply in_app_or in Hc as [Hc|Hc];
          [first [apply in_substring in Hc; apply mem_alphabet;
                  eapply in_format_hex; exact Hc
                 |destruct Hc as [<-|[]]; reflexivity]|]).
  apply in_substring in Hc. apply mem_alphabet. eapply in_format_hex. exact Hc.
Qed.

(** ** The redirect of a login *)

Lemma kept_hex_upper (safe : string) (d : N) :
  kept safe (Urllib.HEX_UPPER d) = true.
Proof.
  destruct d as [|p]; [reflexivity|].
  do 4 (destruct p as [p|p|]; try reflexivity).
Qed.

(** With [%] in the safe set, what [quote] returns is made of characters
    that [quote] keeps. *)
Lemma all_kept_quote (safe s : string) :
  Urllib.mem "%" safe = true -> all_kept safe (Urllib.quote safe s) = true.
Proof.
  intros Hpct. induction s as [|c s IH]; [reflexivity|].
  simpl. rewrite all_kept_append, IH, andb_true_r.
  unfold Urllib.quote_byte.
  destruct (Urllib.mem c Urllib.ALWAYS_SAFE || Urllib.mem c safe) eqn:Hc.
  - unfold all_kept. simpl. unfold kept. now rewrite Hc.
  - unfold all_kept. simpl. rewrite !kept_hex_upper.
    unfold kept at 1. rewrite Hpct, orb_true_r. reflexivity.
Qed.

Lemma all_kept_excludes (safe s : string) (c : ascii) :
  all_kept safe s = true -> kept safe c = false -> Urllib.mem c s = false.
Proof.
  unfold all_kept, Urllib.mem. intros Hall Hc.
  induction s as [|a s IH]; [reflexivity|].
  simpl in Hall |- *. apply andb_prop in Hall as [Ha Hs].
  rewrite (IH Hs), orb_false_r.
  destruct (Ascii.eqb_spec c a) as [->|]; [congruence | reflexivity].
Qed.

(** X12: whatever the configuration holds, the [Location] of the login
    redirect is made only of unreserved characters and of the characters
    of [Starlette.REDIRECT_SAFE]: it contains no space, no carriage return
    and no line feed, and encoding it again changes nothing. *)
Theorem login_location_is_url_safe
    (config : OIDCSettings) (world : World)
    (request : Starlette.Request) (st : State) :
  exists response st' location,
    OIDCController.login config world request st = (Return response, st')
    /\ Starlette.location response = Some location
    /\ all_kept Starlette.REDIRECT_SAFE location = true
    /\ Urllib.mem " " location = false
    /\ Urllib.mem "013" location = false
    /\ Urllib.mem "010" location = false
    /\ Urllib.quote Starlette.REDIRECT_SAFE location = location.
Proof.
  eexists _, _, _. split; [apply login_run|].
  split; [reflexivity|].
  assert (Hall : forall url,
            all_kept Starlette.REDIRECT_SAFE
              (Urllib.quote Starlette.REDIRECT_SAFE url) = true)
    by (intros url; apply all_kept_quote; reflexivity).
  split; [apply Hall|].
  split; [apply (all_kept_excludes _ _ _ (Hall _)); reflexivity|].
  split; [apply (all_kept_excludes _ _ _ (Hall _)); reflexivity|].
  split; [apply (all_kept_excludes _ _ _ (Hall _)); reflexivity|].
  apply quote_kept. apply Hall.
Qed.

(** ** Settings and the session cookie *)

(** X13: when the settings are built from an environment that sets
    neither [OIDC_COOKIE_SECURE] nor [OIDC_COOKIE_SAMESITE], every cookie a
    callback sets is the [session_id] cookie with HttpOnly on, Secure off
    and SameSite [lax], with path [/] and neither [Max-Age] nor [Expires]:
    a cookie of the browser session. *)
Theorem default_session_cookie
    (environ : gmap string string) (settings : OIDCSettings) (world : World)
    (request : Starlette.Request) (st st' : State)
    (response : Starlette.Response) (cookie : Starlette.Cookie) :
  Settings.init environ = inr settings ->
  Settings.lookup_env environ "COOKIE_SECURE" = None ->
  Settings.lookup_env environ "COOKIE_SAMESITE" = None ->
  OIDCController.callback settings world request st = (Return response, st') ->
  In cookie (Starlette.set_cookies response) ->
  cookie
  = {| Starlette.key := "session_id";
       Starlette.value := next_uuid world st;
       Starlette.max_age := None;
       Starlette.expires := None;
       Starlette.path := Some "/";
       Starlette.domain := None;
       Starlette.secure := false;
       Starlette.httponly := true;
       Starlette.samesite := Some lax |}.
Proof.
  intros Hinit Hsecure Hsame Hrun Hin.
  assert (Hflags : COOKIE_SECURE settings = false /\ COOKIE_SAMESITE settings = lax).
  { destruct (init_cases environ)
      as [(s & Hs & _ & _ & _ & _ & _ & _ & _ & _ & H9 & H10)|[Hfail _]];
      [|congruence].
    assert (s = settings) by congruence. subst s.
    unfold Settings.optional_bool in H9.
    unfold Settings.optional_samesite in H10.
    rewrite Hsecure in H9. rewrite Hsame in H10. split; congruence. }
  destruct Hflags as [Hs Hl].
  destruct (callback_cases settings world request st)
    as [(_ & _ & Hnone)|(ui & tok & Hret & _ & _)];
    rewrite Hrun in *; cbn [fst snd] in *.
  - unfold cookie_values in Hnone. apply map_eq_nil in Hnone.
    rewrite Hnone in Hin. destruct Hin.
  - injection Hret as Hret. subst response.
    cbn in Hin. destruct Hin as [<-|[]].
    unfold OIDCController.session_cookie. now rewrite Hs, Hl.
Qed.

Lemma default_session_cookie_witness :
  OIDCController.session_cookie Sample.config Sample.session_id
  = {| Starlette.key := "session_id";
       Starlette.value := next_uuid Sample.world initial_state;
       Starlette.max_age := None;
       Starlette.expires := None;
       Starlette.path := Some "/";
       Starlette.domain := None;
       Starlette.secure := false;
       Starlette.httponly := true;
       Starlette.samesite := Some lax |}.
Proof.
  apply (default_session_cookie Sample.environ Sample.config Sample.world
           Sample.request_with_code initial_state Sample.logged_in
           (Starlette.set_cookie (Starlette.RedirectResponse "/")
              (OIDCController.session_cookie Sample.config Sample.session_id))).
  - vm_compute. reflexivity.
  - vm_compute. reflexivity.
  - vm_compute. reflexivity.
  - vm_compute. reflexivity.
  - left. reflexivity.
Defined.

(** ** The downstream endpoint *)

Lemma count_chars_take (n : nat) (s : string) :
  (count_chars (str_take n s) <= n)%nat.
Proof.
  revert n. induction s as [|c s IH]; intros n; simpl; [lia|].
  destruct (is_continuation c) eqn:Hc; simpl.
  - rewrite Hc. apply IH.
  - destruct n as [|n]; simpl; [lia|]. rewrite Hc. specialize (IH n). lia.
Qed.

Lemma prefix_take (n : nat) (s : string) :
  String.prefix (str_take n s) s = true.
Proof.
  revert n. induction s as [|c s IH]; intros n; simpl; [reflexivity|].
  destruct (is_continuation c); simpl.
  - destruct (ascii_dec c c); [apply IH | congruence].
  - destruct n as [|n]; simpl; [reflexivity|].
    destruct (ascii_dec c c); [apply IH | congruence].
Qed.

Lemma take_all (n : nat) (s : string) :
  (count_chars s <= n)%nat -> str_take n s = s.
Proof.
  revert n. induction s as [|c s IH]; intros n H; simpl in *; [reflexivity|].
  destruct (is_continuation c).
  - now rewrite IH.
  - destruct n as [|n]; [lia|]. rewrite IH by lia. reflexivity.
Qed.

(** X15: the downstream endpoint answers 401 when no identity is attached
    to the request, 400 when an identity is attached but there is no
    (or an empty) [session_id] cookie, and 500 when the session the cookie
    names is unknown to the store; in these cases nothing is sent to the
    provider, and in every case the session store is left as it was. *)
Theorem downstream_refusals
    (config : OIDCSettings) (world : World) (rq : Main.Request) (st : State) :
  (py_truthy (Main.state_user rq) = false ->
   Main.call_downstream_api config world rq st
   = (Main.Returns
        (Main.Response
           {| Starlette.status_code := 401;
              Starlette.location := None;
              Starlette.content :=
                Starlette.Json (PyDict {[ "error" := PyStr "Unauthorized" ]});
              Starlette.set_cookies := [] |}),
      st))
  /\ (py_truthy (Main.state_user rq) = true ->
      Starlette.cookies (Main.request rq) !! "session_id" = None
      \/ Starlette.cookies (Main.request rq) !! "session_id" = Some "" ->
      Main.call_downstream_api config world rq st
      = (Main.Returns
           (Main.Response
              {| Starlette.status_code := 400;
                 Starlette.location := None;
                 Starlette.content :=
                   Starlette.Json (PyDict {[ "error" := PyStr "Missing session" ]});
                 Starlette.set_cookies := [] |}),
         st))
  /\ (forall session_id,
        py_truthy (Main.state_user rq) = true ->
        Starlette.cookies (Main.request rq) !! "session_id" = Some session_id ->
        session_id <> "" ->
        session_store st !! session_id = None ->
        Main.call_downstream_api config world rq st
        = (Main.Returns
             (Main.Response
                {| Starlette.status_code := 500;
                   Starlette.location := None;
                   Starlette.content :=
                     Starlette.Json
                       (PyDict {[ "error" := PyStr "Failed to exchange token" ]});
                   Starlette.set_cookies := [] |}),
           st))
  /\ session_store (snd (Main.call_downstream_api config world rq st))
     = session_store st.
Proof.
  split.
  { intros Huser. unfold Main.call_downstream_api. rewrite Huser. reflexivity. }
  split.
  { intros Huser Hcookie. unfold Main.call_downstream_api. rewrite Huser.
    destruct Hcookie as [-> | ->]; reflexivity. }
  split.
  { intros session_id Huser Hcookie Hne Hunknown.
    unfold Main.call_downstream_api. rewrite Huser, Hcookie.
    cbn [negb opt_truthy]. change (default "" (Some session_id)) with session_id.
    rewrite (str_truthy_nonempty _ Hne).
    cbn [negb]. rewrite exchange_token_unknown by exact Hunknown.
    reflexivity. }
  unfold Main.call_downstream_api.
  destruct (py_truthy (Main.state_user rq)); [|reflexivity].
  cbn [negb].
  destruct (opt_truthy (Starlette.cookies (Main.request rq) !! "session_id"));
    [|reflexivity].
  cbn [negb].
  pose proof (exchange_token_store config world
                (default "" (Starlette.cookies (Main.request rq) !! "session_id"))
                "downstream-api-client-id" st) as Hstore.
  destruct (OIDCController.exchange_token config world _ _ st) as [[v|e] st1];
    cbn [snd] in Hstore |- *; [|exact Hstore].
  destruct (py_truthy v); [|exact Hstore].
  destruct (Main.preview v); exact Hstore.
Qed.

Lemma downstream_refusals_witness :
  Main.call_downstream_api Sample.config Sample.world
    {| Main.state_user := PyNone;
       Main.request := Sample.request_with_cookie Sample.session_id |}
    Sample.logged_in
  = (Main.Returns
       (Main.Response
          {| Starlette.status_code := 401;
             Starlette.location := None;
             Starlette.content :=
               Starlette.Json (PyDict {[ "error" := PyStr "Unauthorized" ]});
             Starlette.set_cookies := [] |}),
     Sample.logged_in)
  /\ Main.call_downstream_api Sample.config Sample.world
       Sample.downstream_request initial_state
     = (Main.Returns
          (Main.Response
             {| Starlette.status_code := 500;
                Starlette.location := None;
                Starlette.content :=
                  Starlette.Json
                    (PyDict {[ "error" := PyStr "Failed to exchange token" ]});
                Starlette.set_cookies := [] |}),
        initial_state).
Proof.
  split.
  - apply (proj1 (downstream_refusals Sample.config Sample.world
                    {| Main.state_user := PyNone;
                       Main.request :=
                         Sample.request_with_cookie Sample.session_id |}
                    Sample.logged_in)).
    reflexivity.
  - apply (proj1 (proj2 (proj2
             (downstream_refusals Sample.config Sample.world
                Sample.downstream_request initial_state)))
             Sample.session_id).
    + reflexivity.
    + vm_compute. reflexivity.
    + vm_compute. discriminate.
    + vm_compute. reflexivity.
Defined.

(** X16: when the downstream endpoint answers with a token preview, the
    exchange returned a non-empty text; the preview is the first 15
    characters of that text, or all of it when it is shorter, followed by
    three dots, so that at most 15 characters of the token are shown. *)
Theorem downstream_preview_shows_at_most_15_characters
    (config : OIDCSettings) (world : World) (rq : Main.Request)
    (st st' : State) (message shown : string) :
  Main.call_downstream_api config world rq st
    = (Main.Returns (Main.Body message (Main.PreviewText shown)), st') ->
  exists session_id token,
    Starlette.cookies (Main.request rq) !! "session_id" = Some session_id
    /\ OIDCController.exchange_token config world session_id
         "downstream-api-client-id" st
       = (Return (PyStr token), st')
    /\ token <> ""
    /\ shown = str_take 15 token +:+ "..."
    /\ String.prefix (str_take 15 token) token = true
    /\ (count_chars (str_take 15 token) <= 15)%nat
    /\ ((count_chars token <= 15)%nat -> shown = token +:+ "...").
Proof.
  unfold Main.call_downstream_api.
  destruct (py_truthy (Main.state_user rq)); [|discriminate].
  cbn [negb].
  destruct (Starlette.cookies (Main.request rq) !! "session_id")
    as [session_id|]; [|discriminate].
  cbn [opt_truthy]. change (default "" (Some session_id)) with session_id.
  destruct (str_truthy session_id); [|discriminate].
  cbn [negb].
  destruct (OIDCController.exchange_token config world session_id
              "downstream-api-client-id" st) as [[v|e] st1] eqn:Hex;
    cbv beta iota; [|discriminate].
  destruct (py_truthy v) eqn:Hv; [|discriminate].
  destruct v as [| | | |token| |]; simpl; try discriminate.
  intros [= _ <- <-].
  exists session_id, token. split; [reflexivity|]. split; [exact Hex|].
  split; [intros ->; discriminate Hv|].
  split; [reflexivity|]. split; [apply prefix_take|].
  split; [apply count_chars_take|].
  intros Hshort. now rewrite take_all.
Qed.

Lemma downstream_preview_shows_at_most_15_characters_witness :
  exists session_id token,
    Starlette.cookies (Main.request Sample.downstream_request) !! "session_id"
      = Some session_id
    /\ OIDCController.exchange_token Sample.config Sample.world_long_token
         session_id "downstream-api-client-id" Sample.logged_in
       = (Return (PyStr token),
          snd (OIDCController.exchange_token Sample.config
                 Sample.world_long_token Sample.session_id
                 "downstream-api-client-id" Sample.logged_in))
    /\ token <> ""
    /\ "0123456789abcde..." = str_take 15 token +:+ "..."
    /\ String.prefix (str_take 15 token) token = true
    /\ (count_chars (str_take 15 token) <= 15)%nat
    /\ ((count_chars token <= 15)%nat -> "0123456789abcde..." = token +:+ "...").
Proof.
  apply (downstream_preview_shows_at_most_15_characters Sample.config
           Sample.world_long_token Sample.downstream_request Sample.logged_in
           (snd (OIDCController.exchange_token Sample.config
                   Sample.world_long_token Sample.session_id
                   "downstream-api-client-id" Sample.logged_in))
           "Successfully exchanged token for downstream API."
           "0123456789abcde...").
  vm_compute. reflexivity.
Defined.
